(** * Custom components: registry, asset handler and instance protocol

    A shallow embedding of [lib/streamlit/components.py].  Python objects are
    modelled by the inductive [PyVal]; the registry dictionary is a [gmap];
    keyword dictionaries, whose iteration order the code relies on, are
    association lists; effects (the tornado response, the log, the queue of a
    DeltaGenerator and the calls to outside collaborators) are threaded
    through a small state-and-exception monad. *)

From Stdlib Require Import String Ascii List ZArith Bool.
From stdpp Require Import base gmap strings list.

Local Open Scope string_scope.
Local Open Scope list_scope.

(** ** Python values *)

#[warnings="-register-all"]
Inductive PyVal : Type :=
| PyNone
| PyBool (b : bool)
| PyInt (n : Z)
| PyStr (s : string)
| PyList (items : list PyVal)
| PyDict (items : list (string * PyVal))
| PyObject (cls : string) (repr : string)
| PyDeltaGenerator (id : nat)
| NoValue.

(** [x is None] *)
Definition is_None (v : PyVal) : bool :=
  match v with PyNone => true | _ => false end.

(** ** Exceptions, results and the state monad *)

(** The exception classes this module raises or meets.  [OSError] stands
    for the class and all its subclasses (FileNotFoundError,
    PermissionError, IsADirectoryError, ...); [detail] is [str(e)].
    [MarshallComponentException] is a subclass of
    [StreamlitAPIException]; its optional second argument is the wrapped
    exception, kept as text. *)
Inductive Exn : Type :=
| StreamlitAPIException (msg : string)
| MarshallComponentException (msg : string) (cause : option string)
| OSError (detail : string)
| UnicodeDecodeError (detail : string)
| ValueError (detail : string)
| TypeError (detail : string)
| AttributeError (detail : string).

(** [str(e)] *)
Definition exn_str (e : Exn) : string :=
  match e with
  | StreamlitAPIException msg => msg
  | MarshallComponentException msg _ => msg
  | OSError d | UnicodeDecodeError d | ValueError d | TypeError d
  | AttributeError d => d
  end.

(** [isinstance(e, OSError)] *)
Definition is_OSError (e : Exn) : bool :=
  match e with OSError _ => true | _ => false end.

Inductive Result (A : Type) : Type :=
| Ok (a : A)
| Raise (e : Exn).
Arguments Ok {A} a.
Arguments Raise {A} e.

Definition M (S A : Type) : Type := S -> Result A * S.

Definition ret {S A} (a : A) : M S A := fun s => (Ok a, s).
Definition raise {S A} (e : Exn) : M S A := fun s => (Raise e, s).
Definition bind {S A B} (c : M S A) (k : A -> M S B) : M S B :=
  fun s => match c s with
           | (Ok a, s') => k a s'
           | (Raise e, s') => (Raise e, s')
           end.
Definition gets {S A} (f : S -> A) : M S A := fun s => (Ok (f s), s).
Definition modify {S} (f : S -> S) : M S unit := fun s => (Ok tt, f s).
Definition lift {S A} (r : Result A) : M S A := fun s => (r, s).

(** [try: c  except <class> as e: h e], the class given by [handles]. *)
Definition try_except {S A} (c : M S A) (handles : Exn -> bool)
    (h : Exn -> M S A) : M S A :=
  fun s => match c s with
           | (Raise e, s') => if handles e then h e s' else (Raise e, s')
           | r => r
           end.

Declare Scope py_scope.
Delimit Scope py_scope with py.
Notation "x <- c ;; k" := (bind c (fun x => k))
  (at level 100, c at next level, right associativity) : py_scope.
Notation "c ;; k" := (bind c (fun _ => k))
  (at level 100, right associativity) : py_scope.
Local Open Scope py_scope.

(** [for x in xs: body x] *)
Fixpoint for_each {S A} (xs : list A) (body : A -> M S unit) : M S unit :=
  match xs with
  | [] => ret tt
  | x :: xs' => body x ;; for_each xs' body
  end.

(** ** Python string methods *)

(** [s.split(sep)] for a one-character separator: never empty. *)
Fixpoint split (sep : ascii) (s : string) : list string :=
  match s with
  | EmptyString => [EmptyString]
  | String c s' =>
      if Ascii.eqb c sep then EmptyString :: split sep s'
      else match split sep s' with
           | [] => [String c EmptyString]
           | h :: t => String c h :: t
           end
  end.

(** [sep.join(parts)] *)
Fixpoint join (sep : string) (parts : list string) : string :=
  match parts with
  | [] => EmptyString
  | [x] => x
  | x :: rest => x +:+ sep +:+ join sep rest
  end.

(** [s.startswith(p)] *)
Fixpoint startswith (p s : string) : bool :=
  match p, s with
  | EmptyString, _ => true
  | String _ _, EmptyString => false
  | String a p', String b s' => Ascii.eqb a b && startswith p' s'
  end.

(** [s.endswith(suffix)] *)
Fixpoint endswith (suffix s : string) : bool :=
  String.eqb s suffix ||
  match s with
  | EmptyString => false
  | String _ s' => endswith suffix s'
  end.

(** [needle in s] *)
Fixpoint contains (needle s : string) : bool :=
  startswith needle s ||
  match s with
  | EmptyString => false
  | String _ s' => contains needle s'
  end.

Definition slash : ascii := "/"%char.

(** [c in s] for a character *)
Fixpoint has_char (c : ascii) (s : string) : bool :=
  match s with
  | EmptyString => false
  | String a s' => Ascii.eqb a c || has_char c s'
  end.

(** ** [os.path] (posixpath) *)

(** [os.path.join(a, b)]: an absolute [b] discards [a]. *)
Definition os_path_join (a b : string) : string :=
  if startswith "/" b then b
  else if String.eqb a "" || endswith "/" a then a +:+ b
  else a +:+ "/" +:+ b.

Definition normpath_step (initial_slashes : nat) (new_comps : list string)
    (comp : string) : list string :=
  if String.eqb comp "" || String.eqb comp "." then new_comps
  else if negb (String.eqb comp "..")
          || (Nat.eqb initial_slashes 0 && Nat.eqb (List.length new_comps) 0)
          || (negb (Nat.eqb (List.length new_comps) 0)
              && String.eqb (List.last new_comps "") "..")
       then new_comps ++ [comp]
       else List.removelast new_comps.

Fixpoint repeat_string (s : string) (n : nat) : string :=
  match n with
  | O => EmptyString
  | S n' => s +:+ repeat_string s n'
  end.

(** [os.path.normpath(path)] *)
Definition normpath (path : string) : string :=
  if String.eqb path "" then "."
  else
    let initial_slashes :=
      if startswith "/" path then
        if startswith "//" path && negb (startswith "///" path) then 2 else 1
      else 0 in
    let comps := split slash path in
    let new_comps := fold_left (normpath_step initial_slashes) comps [] in
    let p := repeat_string "/" initial_slashes +:+ join "/" new_comps in
    if String.eqb p "" then "." else p.

(** [os.path.abspath(path)], with the working directory made explicit. *)
Definition os_path_abspath (cwd path : string) : string :=
  normpath (if startswith "/" path then path else os_path_join cwd path).

(** Position of the last occurrence of [c], counted as Python's [rfind]
    plus one (0 when absent). *)
Fixpoint rfind_succ (c : ascii) (s : string) : nat :=
  match s with
  | EmptyString => 0
  | String a s' =>
      match rfind_succ c s' with
      | O => if Ascii.eqb a c then 1 else 0
      | S k => S (S k)
      end
  end.

Definition str_drop (n : nat) (s : string) : string :=
  String.substring n (String.length s - n) s.
Definition str_take (n : nat) (s : string) : string :=
  String.substring 0 n s.

(** [os.path.basename(p)] *)
Definition basename (p : string) : string := str_drop (rfind_succ slash p) p.

(** The scan of [genericpath._splitext] over the leading dots of the last
    component: is there a character other than a dot in [s[i:dot]]? *)
Fixpoint has_non_dot (s : string) : bool :=
  match s with
  | EmptyString => false
  | String a s' => negb (Ascii.eqb a "."%char) || has_non_dot s'
  end.

(** [os.path.splitext(p)] *)
Definition splitext (p : string) : string * string :=
  let sep_succ := rfind_succ slash p in
  let dot_succ := rfind_succ "."%char p in
  if Nat.ltb sep_succ dot_succ then
    let dot_index := dot_succ - 1 in
    if has_non_dot (String.substring sep_succ (dot_index - sep_succ) p)
    then (str_take dot_index p, str_drop dot_index p)
    else (p, "")
  else (p, "").

(** ** Logging *)

Inductive Level : Type := DEBUG | INFO | WARNING.

Record LogRecord : Type := { level : Level; message : string }.

Definition is_warning (r : LogRecord) : bool :=
  match level r with WARNING => true | _ => false end.

(** The warnings among the records of a log. *)
Definition warnings (log : list LogRecord) : list string :=
  map message (filter (fun r => is_warning r = true) log).

(** ** The platform: file system, working directory, MIME table, config *)

Record Platform : Type := {
  getcwd : string;
  isdir : string -> bool;
  (** [open(p, "r")] followed by [file.read()]: the text, or the exception
      either of them raises. *)
  open_read : string -> Result string;
  (** [mimetypes.guess_type]: (type, encoding) *)
  guess_type : string -> option string * option string;
  (** [streamlit.server.routes.allow_cross_origin_requests()] *)
  allow_cross_origin_requests : bool
}.

(** ** CustomComponent *)

Module CustomComponent.

Record t : Type := { name : string; path : option string; url : option string }.

(** [__init__] *)
Definition init (name : string) (path url : option string) : Result t :=
  match path, url with
  | None, None | Some _, Some _ =>
      Raise (StreamlitAPIException
               "Either 'path' or 'url' must be set, but not both.")
  | _, _ => Ok {| name := name; path := path; url := url |}
  end.

(** The [abspath] property. *)
Definition abspath (os : Platform) (self : t) : option string :=
  match path self with
  | None => None
  | Some p => Some (os_path_abspath (getcwd os) p)
  end.

Definition option_string_eqb (a b : option string) : bool :=
  match a, b with
  | None, None => true
  | Some x, Some y => String.eqb x y
  | _, _ => false
  end.

(** [__eq__] (both sides are CustomComponent instances) *)
Definition eqb (self other : t) : bool :=
  String.eqb (name self) (name other)
  && option_string_eqb (path self) (path other)
  && option_string_eqb (url self) (url other).

(** [__ne__] *)
Definition neb (self other : t) : bool := negb (eqb self other).

(** [__str__] *)
Definition str (self : t) : string :=
  "'" +:+ name self +:+ "': " +:+
  match path self with
  | Some p => p
  | None => match url self with Some u => u | None => "None" end
  end.

End CustomComponent.

(** ** ComponentRegistry *)

Record ComponentRegistry : Type := {
  _components : gmap string CustomComponent.t;
  registry_log : list LogRecord
}.

(** [ComponentRegistry.__init__] *)
Definition ComponentRegistry_init : ComponentRegistry :=
  {| _components := ∅; registry_log := [] |}.

Definition registry_logger (lvl : Level) (msg : string) : M ComponentRegistry unit :=
  modify (fun r => {| _components := _components r;
                      registry_log := registry_log r ++ [{| level := lvl; message := msg |}] |}).

Definition set_component (c : CustomComponent.t) : M ComponentRegistry unit :=
  modify (fun r => {| _components := <[CustomComponent.name c := c]> (_components r);
                      registry_log := registry_log r |}).

(** [register_component]; the body of [with self._lock] runs atomically. *)
Definition register_component (os : Platform) (component : CustomComponent.t)
    : M ComponentRegistry unit :=
  let abspath := CustomComponent.abspath os component in
  match abspath with
  | Some p =>
      if negb (isdir os p)
      then raise (StreamlitAPIException ("No such component directory: '" +:+ p +:+ "'"))
      else ret tt
  | None => ret tt
  end ;;
  existing <- gets (fun r => _components r !! CustomComponent.name component) ;;
  set_component component ;;
  match existing with
  | Some e =>
      if CustomComponent.neb component e
      then registry_logger WARNING
             (CustomComponent.str component +:+ " overriding previously-registered "
              +:+ CustomComponent.str e)
      else ret tt
  | None => ret tt
  end ;;
  registry_logger INFO ("Registered component " +:+ CustomComponent.str component).

(** [get_component_path] *)
Definition get_component_path (os : Platform) (self : ComponentRegistry)
    (name : string) : option string :=
  match _components self !! name with
  | Some component => CustomComponent.abspath os component
  | None => None
  end.

(** ** declare_component *)

(** What [inspect] reports about the calling frame: the name of its module
    and the file it was loaded from. *)
Record CallerFrame : Type := { module_name : string; file_path : string }.

Definition component_name_of (caller : CallerFrame) : string :=
  if String.eqb (module_name caller) "__main__"
  then fst (splitext (basename (file_path caller)))
  else module_name caller.

Definition declare_component (os : Platform) (caller : CallerFrame)
    (path url : option string) : M ComponentRegistry CustomComponent.t :=
  let component_name := component_name_of caller in
  component <- lift (CustomComponent.init component_name path url) ;;
  register_component os component ;;
  ret component.

(** ** ComponentRequestHandler *)

(** The part of a tornado request handler this module drives: status,
    headers and written body, together with the files opened and the
    records logged while handling. *)
Record Handler : Type := {
  status : nat;
  headers : gmap string string;
  body : string;
  opened : list string;
  handler_log : list LogRecord
}.

Definition new_handler : Handler :=
  {| status := 200; headers := ∅; body := ""; opened := []; handler_log := [] |}.

Definition write (chunk : string) : M Handler unit :=
  modify (fun h => {| status := status h; headers := headers h;
                      body := body h +:+ chunk; opened := opened h;
                      handler_log := handler_log h |}).

Definition set_status (code : nat) : M Handler unit :=
  modify (fun h => {| status := code; headers := headers h; body := body h;
                      opened := opened h; handler_log := handler_log h |}).

Definition set_header (k v : string) : M Handler unit :=
  modify (fun h => {| status := status h; headers := <[k := v]> (headers h);
                      body := body h; opened := opened h;
                      handler_log := handler_log h |}).

Definition handler_logger (lvl : Level) (msg : string) : M Handler unit :=
  modify (fun h => {| status := status h; headers := headers h; body := body h;
                      opened := opened h;
                      handler_log := handler_log h ++ [{| level := lvl; message := msg |}] |}).

(** [with open(abspath, "r") as file: contents = file.read()] *)
Definition open_and_read (os : Platform) (abspath : string) : M Handler string :=
  modify (fun h => {| status := status h; headers := headers h; body := body h;
                      opened := opened h ++ [abspath];
                      handler_log := handler_log h |}) ;;
  lift (open_read os abspath).

(** [set_extra_headers] *)
Definition set_extra_headers (path : string) : M Handler unit :=
  let is_index_url := Nat.eqb (String.length path) 0 in
  if is_index_url || endswith ".html" path
  then set_header "Cache-Control" "no-cache"
  else set_header "Cache-Control" "public".

(** [set_default_headers] *)
Definition set_default_headers (os : Platform) : M Handler unit :=
  if allow_cross_origin_requests os
  then set_header "Access-Control-Allow-Origin" "*"
  else ret tt.

(** [get_content_type] *)
Definition get_content_type (os : Platform) (abspath : string) : string :=
  let '(mime_type, encoding) := guess_type os abspath in
  match encoding with
  | Some enc =>
      if String.eqb enc "gzip" then "application/gzip"
      else "application/octet-stream"
  | None =>
      match mime_type with
      | Some m => m
      | None => "application/octet-stream"
      end
  end.

(** [get_url] *)
Definition get_url (file_id : string) : string := "components/" +:+ file_id.

(** [parts[0]]: [split] never returns the empty list. *)
Definition first_part (parts : list string) : string := List.hd "" parts.

(** [get] *)
Definition get (os : Platform) (registry : ComponentRegistry) (path : string)
    : M Handler unit :=
  let parts := split slash path in
  let component_name := first_part parts in
  match get_component_path os registry component_name with
  | None =>
      write (path +:+ " not found") ;;
      set_status 404
  | Some component_root =>
      let filename := join "/" (List.tl parts) in
      let abspath := os_path_join component_root filename in
      handler_logger DEBUG
        ("ComponentRequestHandler: GET: " +:+ path +:+ " -> " +:+ abspath) ;;
      read <- try_except
                (contents <- open_and_read os abspath ;; ret (Some contents))
                is_OSError
                (fun e =>
                   write (path +:+ " read error: " +:+ exn_str e) ;;
                   set_status 404 ;;
                   ret None) ;;
      match read with
      | None => ret tt
      | Some contents =>
          write contents ;;
          set_header "Content-Type" (get_content_type os abspath) ;;
          set_extra_headers path
      end
  end.

(** The relative file path of a request within the component's bundle. *)
Definition relative_path (path : string) : string :=
  join "/" (List.tl (split slash path)).

(** Components of a normalised path, and containment of one path in the
    directory tree rooted at another. *)
Definition path_components (p : string) : list string :=
  filter (fun c => c ≠ "") (split slash (normpath p)).

Fixpoint is_prefix_of (xs ys : list string) : bool :=
  match xs, ys with
  | [], _ => true
  | _ :: _, [] => false
  | x :: xs', y :: ys' => String.eqb x y && is_prefix_of xs' ys'
  end.

Definition within_root (root p : string) : bool :=
  is_prefix_of (path_components root) (path_components p).

(** ** The instance protocol *)

(** The protobuf messages the builder fills in.  [ArgsDataframe.value_data]
    is [value.data], the slot the tabular encoder writes. *)
Module ArgsDataframe.
Record t : Type := { key : string; value_data : string }.
End ArgsDataframe.

Module ComponentInstance.
Record t : Type := {
  id : string;
  component_name : string;
  url : string;
  args_json : string;
  args_dataframe : list ArgsDataframe.t
}.

(** A freshly constructed message: every field at its default. *)
Definition empty : t :=
  {| id := ""; component_name := ""; url := ""; args_json := "";
     args_dataframe := [] |}.

Definition set_component_name (v : string) (m : t) : t :=
  {| id := id m; component_name := v; url := url m;
     args_json := args_json m; args_dataframe := args_dataframe m |}.
Definition set_url (v : string) (m : t) : t :=
  {| id := id m; component_name := component_name m; url := v;
     args_json := args_json m; args_dataframe := args_dataframe m |}.
Definition set_args_json (v : string) (m : t) : t :=
  {| id := id m; component_name := component_name m; url := url m;
     args_json := v; args_dataframe := args_dataframe m |}.
Definition append_args_dataframe (df : ArgsDataframe.t) (m : t) : t :=
  {| id := id m; component_name := component_name m; url := url m;
     args_json := args_json m; args_dataframe := args_dataframe m ++ [df] |}.
End ComponentInstance.

Record Element : Type := { component_instance : ComponentInstance.t }.

Definition new_element : Element :=
  {| component_instance := ComponentInstance.empty |}.

(** A Python dictionary with string keys, in insertion order. *)
Definition Dict : Type := list (string * PyVal).

(** [d[k] = v] *)
Fixpoint dict_set (d : Dict) (k : string) (v : PyVal) : Dict :=
  match d with
  | [] => [(k, v)]
  | (k', v') :: d' =>
      if String.eqb k' k then (k', v) :: d' else (k', v') :: dict_set d' k v
  end.

Definition dict_keys (d : Dict) : list string := map fst d.

(** The collaborators of the instance protocol, all outside this module:
    [type_util.is_dataframe_like], [json.dumps] (called under a handler, so
    it may raise), [arrow_table.marshall] (the bytes it writes into the slot
    it is handed), [DeltaGenerator._get_widget_ui_value] (receives the
    element by reference: it may update it, and returns the widget value),
    [format()] of a value inside an f-string, and [streamlit._main].  The
    module calls all but [json.dumps] outside any handler; they are taken
    to return. *)
Record Host : Type := {
  is_dataframe_like : PyVal -> bool;
  json_dumps : Dict -> Result string;
  arrow_table_marshall : PyVal -> string;
  _get_widget_ui_value : string -> Element -> PyVal -> string -> Element * PyVal;
  format : PyVal -> string;
  _main : PyVal
}.

(** What happens to the element while it is built: every write of this
    module into it, and every call of the value store with the element as
    it stood at the call. *)
Inductive Event : Type :=
| SetComponentName (v : string)
| SetUrl (v : string)
| SetArgsJson (v : string)
| AppendArgsDataframe (df : ArgsDataframe.t)
| GetWidgetUiValue (element_type : string) (element : Element)
    (user_key : PyVal) (widget_func_name : string).

Definition is_args_write (ev : Event) : bool :=
  match ev with
  | SetArgsJson _ | AppendArgsDataframe _ => true
  | _ => false
  end.

Definition is_value_request (ev : Event) : bool :=
  match ev with
  | GetWidgetUiValue _ _ _ _ => true
  | _ => false
  end.

Record Builder : Type := { element : Element; events : list Event }.

Definition update_instance (f : ComponentInstance.t -> ComponentInstance.t)
    (ev : Event) : M Builder unit :=
  modify (fun b => {| element := {| component_instance := f (component_instance (element b)) |};
                      events := events b ++ [ev] |}).

(** [marshall_element_args] *)
Definition marshall_element_args (host : Host) (serialized_args_json : string)
    (args_df : Dict) : M Builder unit :=
  update_instance (ComponentInstance.set_args_json serialized_args_json)
                  (SetArgsJson serialized_args_json) ;;
  for_each args_df (fun kv =>
    let new_args_dataframe :=
      {| ArgsDataframe.key := fst kv;
         ArgsDataframe.value_data := arrow_table_marshall host (snd kv) |} in
    update_instance (ComponentInstance.append_args_dataframe new_args_dataframe)
                    (AppendArgsDataframe new_args_dataframe)).

(** The call of [_get_widget_ui_value] on the element under construction. *)
Definition request_widget_value (host : Host) (element_type : string)
    (user_key : PyVal) (widget_func_name : string) : M Builder PyVal :=
  fun b =>
    let '(element', widget_value) :=
      _get_widget_ui_value host element_type (element b) user_key widget_func_name in
    (Ok widget_value,
     {| element := element';
        events := events b ++ [GetWidgetUiValue element_type (element b)
                                                user_key widget_func_name] |}).

(** [marshall_component], the closure handed to the DeltaGenerator. *)
Definition marshall_component (host : Host) (self : CustomComponent.t)
    (default key : PyVal) (serialized_args_json : string) (args_df : Dict)
    : M Builder PyVal :=
  update_instance (ComponentInstance.set_component_name (CustomComponent.name self))
                  (SetComponentName (CustomComponent.name self)) ;;
  match CustomComponent.url self with
  | Some u => update_instance (ComponentInstance.set_url u) (SetUrl u)
  | None => ret tt
  end ;;
  (if is_None key
   then marshall_element_args host serialized_args_json args_df
   else ret tt) ;;
  widget_value <- request_widget_value host "component_instance" key
                    (CustomComponent.name self) ;;
  (if negb (is_None key)
   then marshall_element_args host serialized_args_json args_df
   else ret tt) ;;
  let widget_value := if is_None widget_value then default else widget_value in
  ret (if negb (is_None widget_value) then widget_value else NoValue).

(** The DeltaGenerators of the running script: for each, the elements it
    has enqueued so far with their delta type. *)
Record App : Type := {
  queues : gmap nat (list (string * Element));
  app_events : list Event
}.

Definition queue_of (app : App) (dg : nat) : list (string * Element) :=
  default [] (queues app !! dg).

(** Modelled from the spec: [DeltaGenerator._enqueue_new_element_delta] is
    not part of this file.  Per the spec the node renderer is
    "enqueue(builderFunction, nodeKind) -> returnValueOfBuilder;
    builderFunction is handed a mutable node to populate": a fresh element
    is built, enqueued, and the builder's value returned; when the builder
    raises nothing is enqueued. *)
Definition _enqueue_new_element_delta (dg : nat)
    (marshall_element : M Builder PyVal) (delta_type : string) : M App PyVal :=
  fun app =>
    match marshall_element {| element := new_element; events := app_events app |} with
    | (Ok v, b) =>
        (Ok v, {| queues := <[dg := queue_of app dg ++ [(delta_type, element b)]]> (queues app);
                  app_events := events b |})
    | (Raise e, b) =>
        (Raise e, {| queues := queues app; app_events := events b |})
    end.

(** The loop partitioning [kwargs] into JSON and dataframe arguments. *)
Definition partition_step (host : Host) (acc : Dict * Dict) (kv : string * PyVal)
    : Dict * Dict :=
  let '(args_json, args_df) := acc in
  if is_dataframe_like host (snd kv)
  then (args_json, dict_set args_df (fst kv) (snd kv))
  else (dict_set args_json (fst kv) (snd kv), args_df).

Definition partition_kwargs (host : Host) (kwargs : Dict) : Dict * Dict :=
  fold_left (partition_step host) kwargs ([], []).

(** [create_instance] *)
Definition create_instance (host : Host) (self : CustomComponent.t)
    (args : list PyVal) (loc default key : PyVal) (kwargs : Dict) : M App PyVal :=
  match args with
  | a :: _ =>
      raise (MarshallComponentException
               ("Argument '" +:+ format host a +:+ "' needs a label") None)
  | [] => ret tt
  end ;;
  let loc := if is_None loc then _main host else loc in
  let '(args_json, args_df) := partition_kwargs host kwargs in
  serialized_args_json <-
    match json_dumps host args_json with
    | Ok s => ret s
    | Raise e =>
        raise (MarshallComponentException
                 "Could not convert component args to JSON" (Some (exn_str e)))
    end ;;
  match loc with
  | PyDeltaGenerator dg =>
      _enqueue_new_element_delta dg
        (marshall_component host self default key serialized_args_json args_df)
        "component"
  | _ => raise (AttributeError "object has no attribute '_enqueue_new_element_delta'")
  end.

(** A call of a component as its caller writes it: positional arguments
    and keyword arguments. *)
Record Call : Type := { positional : list PyVal; keywords : Dict }.

(** The keyword-only parameters of [__call__] and [create_instance]; every
    other keyword goes to the catch-all [kwargs]. *)
Definition keyword_only : list string := ["loc"; "default"; "key"].

Definition is_keyword_only (k : string) : bool :=
  existsb (String.eqb k) keyword_only.

(** The value a keyword-only parameter receives: the one supplied under its
    name, else its default [None]. *)
Fixpoint keyword_or_None (k : string) (kws : Dict) : PyVal :=
  match kws with
  | [] => PyNone
  | (k', v) :: rest => if String.eqb k' k then v else keyword_or_None k rest
  end.

(** What is left for [**kwargs]. *)
Definition remaining_keywords (kws : Dict) : Dict :=
  filter (fun kv => is_keyword_only (fst kv) = false) kws.

(** [__call__], with Python's binding of the call's arguments to the
    parameters. *)
Definition call (host : Host) (self : CustomComponent.t) (c : Call) : M App PyVal :=
  let args := positional c in
  let loc := keyword_or_None "loc" (keywords c) in
  let default := keyword_or_None "default" (keywords c) in
  let key := keyword_or_None "key" (keywords c) in
  let kwargs := remaining_keywords (keywords c) in
  create_instance host self args loc default key kwargs.

(** The elements a run added to the queues, read off the final state. *)
Definition enqueued (app : App) : list (string * Element) :=
  concat (map snd (map_to_list (queues app))).

(** ** A concrete platform, registry and host, for running the model *)

Definition demo_os : Platform := {|
  getcwd := "/home/app";
  isdir := fun p => String.eqb p "/srv/comp";
  open_read := fun p =>
    if String.eqb p "/srv/comp/index.html" then Ok "<html></html>"
    else if String.eqb p "/srv/comp/sub/file.css" then Ok "body{}"
    else if String.eqb p "/srv/comp/logo.png"
    then Raise (UnicodeDecodeError
                  "'utf-8' codec can't decode byte 0x89 in position 0: invalid start byte")
    else if String.eqb p "/srv/comp/"
    then Raise (OSError "[Errno 21] Is a directory: '/srv/comp/'")
    else if String.eqb p "/srv/comp/../secret.txt" then Ok "hunter2"
    else if String.eqb p "/etc/passwd" then Ok "root:x:0:0:root:/root:/bin/sh"
    else Raise (OSError ("[Errno 2] No such file or directory: '" +:+ p +:+ "'"));
  guess_type := fun p =>
    if endswith ".css" p then (Some "text/css", None)
    else if endswith ".html" p then (Some "text/html", None)
    else (None, None);
  allow_cross_origin_requests := true
|}.

Definition demo_local : CustomComponent.t :=
  {| CustomComponent.name := "comp";
     CustomComponent.path := Some "/srv/comp";
     CustomComponent.url := None |}.

Definition demo_remote : CustomComponent.t :=
  {| CustomComponent.name := "remote";
     CustomComponent.path := None;
     CustomComponent.url := Some "http://localhost:3001" |}.

Definition demo_registry : ComponentRegistry :=
  {| _components := <["comp" := demo_local]> (<["remote" := demo_remote]> ∅);
     registry_log := [] |}.

Definition demo_format (v : PyVal) : string :=
  match v with
  | PyNone => "None"
  | PyBool true => "True"
  | PyBool false => "False"
  | PyStr s => s
  | PyObject _ repr => repr
  | _ => "<object>"
  end.

(** A host whose value store answers [reported] and stamps the element
    with an id made of what the element holds at the call. *)
Definition demo_host (reported : PyVal) : Host := {|
  is_dataframe_like := fun v =>
    match v with PyObject cls _ => String.eqb cls "DataFrame" | _ => false end;
  json_dumps := fun d =>
    Ok ("{" +:+ join ", " (map (fun kv => "'" +:+ fst kv +:+ "': " +:+ demo_format (snd kv)) d) +:+ "}");
  arrow_table_marshall := fun v => "arrow:" +:+ demo_format v;
  _get_widget_ui_value := fun _ el user_key _ =>
    let m := component_instance el in
    ({| component_instance :=
          {| ComponentInstance.id :=
               ComponentInstance.component_name m +:+ "|" +:+ ComponentInstance.url m
               +:+ "|" +:+ ComponentInstance.args_json m +:+ "|" +:+ demo_format user_key;
             ComponentInstance.component_name := ComponentInstance.component_name m;
             ComponentInstance.url := ComponentInstance.url m;
             ComponentInstance.args_json := ComponentInstance.args_json m;
             ComponentInstance.args_dataframe := ComponentInstance.args_dataframe m |} |},
     reported);
  format := demo_format;
  _main := PyDeltaGenerator 0
|}.

Definition new_app : App := {| queues := ∅; app_events := [] |}.

(** ** Statements of the specification, as it words them

    Kept as definitions so that they can be evaluated on the model. *)

(** "The response carries [Cache-Control: no-cache] exactly when the
    relative file path is empty or ends in [.html]." *)
Definition cache_control_as_stated (os : Platform) (registry : ComponentRegistry)
    (path : string) (h : Handler) : Prop :=
  headers (snd (get os registry path h)) !! "Cache-Control" = Some "no-cache"
  <-> (relative_path path = "" \/ endswith ".html" (relative_path path) = true).

(** "The filesystem path actually opened never escapes the registered
    component's root directory." *)
Definition stays_within_root (os : Platform) (registry : ComponentRegistry)
    (path : string) (h : Handler) : Prop :=
  forall root,
    get_component_path os registry (first_part (split slash path)) = Some root ->
    forall p, In p (opened (snd (get os registry path h))) ->
              In p (opened h) \/ within_root root p = true.

(** "Any failure to read the joined file path results in a 404 response
    whose body includes the error detail; the handler never propagates the
    failure." *)
Definition read_failure_as_stated (os : Platform) (registry : ComponentRegistry)
    (path : string) (h : Handler) : Prop :=
  forall root e,
    get_component_path os registry (first_part (split slash path)) = Some root ->
    open_read os (os_path_join root (relative_path path)) = Raise e ->
    fst (get os registry path h) = Ok tt
    /\ status (snd (get os registry path h)) = 404
    /\ contains (exn_str e) (body (snd (get os registry path h))) = true.

(** The record [get] logs before it opens the file. *)
Definition debug_record (path abspath : string) : LogRecord :=
  {| level := DEBUG;
     message := "ComponentRequestHandler: GET: " +:+ path +:+ " -> " +:+ abspath |}.

(** A declaration made with a url and no path. *)
Definition url_backed (c : CustomComponent.t) : Prop :=
  exists u, CustomComponent.init (CustomComponent.name c) None (Some u) = Ok c.

(** The check [register_component] makes before it touches the registry. *)
Definition valid_location (os : Platform) (c : CustomComponent.t) : bool :=
  match CustomComponent.abspath os c with
  | Some p => isdir os p
  | None => true
  end.

(** The records one registration of [component] adds to the log when the
    name was bound to [existing] before. *)
Definition override_message (component e : CustomComponent.t) : string :=
  CustomComponent.str component +:+ " overriding previously-registered "
  +:+ CustomComponent.str e.

Definition registration_records (component : CustomComponent.t)
    (existing : option CustomComponent.t) : list LogRecord :=
  match existing with
  | Some e =>
      if CustomComponent.neb component e
      then [{| level := WARNING; message := override_message component e |}]
      else []
  | None => []
  end
  ++ [{| level := INFO;
         message := "Registered component " +:+ CustomComponent.str component |}].

(** "Both or neither of path and url are supplied, or the supplied local
    path does not resolve to an existing directory." *)
Definition misconfigured (os : Platform) (path url : option string) : Prop :=
  (path = None /\ url = None)
  \/ (exists p u, path = Some p /\ url = Some u)
  \/ (exists p, path = Some p
                /\ isdir os (os_path_abspath (getcwd os) p) = false).

(** ** Vocabulary for the instance protocol *)

(** The tabular messages built from [args_df], in its iteration order. *)
Definition args_dataframes (host : Host) (args_df : Dict) : list ArgsDataframe.t :=
  map (fun kv => {| ArgsDataframe.key := fst kv;
                    ArgsDataframe.value_data := arrow_table_marshall host (snd kv) |})
      args_df.

(** An element after the component's name and url were written into it. *)
Definition named (self : CustomComponent.t) (e : Element) : Element :=
  let m := component_instance e in
  {| component_instance :=
       {| ComponentInstance.id := ComponentInstance.id m;
          ComponentInstance.component_name := CustomComponent.name self;
          ComponentInstance.url :=
            match CustomComponent.url self with
            | Some u => u
            | None => ComponentInstance.url m
            end;
          ComponentInstance.args_json := ComponentInstance.args_json m;
          ComponentInstance.args_dataframe := ComponentInstance.args_dataframe m |} |}.

(** An element after the arguments were written into it. *)
Definition with_args (serialized_args_json : string) (dfs : list ArgsDataframe.t)
    (e : Element) : Element :=
  let m := component_instance e in
  {| component_instance :=
       {| ComponentInstance.id := ComponentInstance.id m;
          ComponentInstance.component_name := ComponentInstance.component_name m;
          ComponentInstance.url := ComponentInstance.url m;
          ComponentInstance.args_json := serialized_args_json;
          ComponentInstance.args_dataframe := ComponentInstance.args_dataframe m ++ dfs |} |}.

Definition naming_events (self : CustomComponent.t) : list Event :=
  SetComponentName (CustomComponent.name self)
  :: match CustomComponent.url self with
     | Some u => [SetUrl u]
     | None => []
     end.

Definition args_events (serialized_args_json : string) (dfs : list ArgsDataframe.t)
    : list Event :=
  SetArgsJson serialized_args_json :: map AppendArgsDataframe dfs.





(** ** Vocabulary for further properties *)

(** What declarations made through [declare_component] keep true of the
    registry: each one is stored under its own name and has exactly one of
    path and url. *)
Definition registry_invariant (reg : ComponentRegistry) : Prop :=
  forall n c,
    _components reg !! n = Some c ->
    CustomComponent.name c = n
    /\ (CustomComponent.path c = None <-> CustomComponent.url c <> None).

(** The request was answered with the contents of a file. *)
Definition served (os : Platform) (registry : ComponentRegistry) (path : string)
    : Prop :=
  exists root contents,
    get_component_path os registry (first_part (split slash path)) = Some root
    /\ open_read os (os_path_join root (relative_path path)) = Ok contents.

(** A host like [demo_host] whose [json.dumps] rejects its argument. *)
Definition demo_host_json_fails : Host := {|
  is_dataframe_like := is_dataframe_like (demo_host PyNone);
  json_dumps := fun _ => Raise (TypeError "Object of type set is not JSON serializable");
  arrow_table_marshall := arrow_table_marshall (demo_host PyNone);
  _get_widget_ui_value := _get_widget_ui_value (demo_host PyNone);
  format := demo_format;
  _main := PyDeltaGenerator 0
|}.

(** What a call passes for a keyword-only parameter: the value written
    under that keyword, or [None], the parameter's default, when the call
    does not use the keyword. *)
Definition passes (kws : Dict) (param : string) (v : PyVal) : Prop :=
  In (param, v) kws \/ (~ In param (dict_keys kws) /\ v = PyNone).

(** The DeltaGenerator a call writes to: the one passed as [loc], or
    [streamlit._main] when [loc] is [None] or left out. *)
Definition writes_to (host : Host) (kws : Dict) (dg : nat) : Prop :=
  exists l, passes kws "loc" l
            /\ (if is_None l then _main host else l) = PyDeltaGenerator dg.

(** * Facts about the string and path functions *)

Section string_facts.

Lemma split_not_nil sep s : split sep s <> [].
Proof.
  destruct s as [|c s]; simpl; [discriminate|].
  destruct (Ascii.eqb c sep); [discriminate|].
  destruct (split sep s); discriminate.
Qed.

(** Joining the parts with the separator gives the string back. *)
Lemma join_split sep s : join (String sep EmptyString) (split sep s) = s.
Proof.
  induction s as [|c s IH]; simpl; [reflexivity|].
  destruct (Ascii.eqb_spec c sep) as [->|Hne].
  - pose proof (split_not_nil sep s) as Hnn.
    destruct (split sep s) as [|h t]; [contradiction|].
    simpl in *. now rewrite IH.
  - pose proof (split_not_nil sep s) as Hnn.
    destruct (split sep s) as [|h t]; [contradiction|].
    destruct t as [|h' t']; simpl in *; now rewrite <- IH.
Qed.

Lemma app_cons c (p s : string) : String c p +:+ s = String c (p +:+ s).
Proof. reflexivity. Qed.

Lemma app_nil_l (s : string) : "" +:+ s = s.
Proof. reflexivity. Qed.

Lemma endswith_refl s : endswith s s = true.
Proof. destruct s; cbn [endswith]; rewrite String.eqb_refl; reflexivity. Qed.

Lemma endswith_app suffix p : endswith suffix (p +:+ suffix) = true.
Proof.
  induction p as [|c p IH].
  - apply endswith_refl.
  - rewrite app_cons. cbn [endswith]. rewrite IH. apply orb_true_r.
Qed.

Lemma endswith_inv suffix s :
  endswith suffix s = true -> exists p, s = p +:+ suffix.
Proof.
  induction s as [|c s IH]; cbn [endswith]; intros H.
  - destruct suffix; [now exists ""|discriminate].
  - apply orb_true_iff in H as [H|H].
    + apply String.eqb_eq in H. exists "". now rewrite H.
    + destruct (IH H) as [p ->]. now exists (String c p).
Qed.

Lemma has_char_app_sep c a f : has_char c (a +:+ String c f) = true.
Proof.
  induction a as [|x a IH].
  - rewrite app_nil_l. cbn [has_char]. now rewrite Ascii.eqb_refl.
  - rewrite app_cons. cbn [has_char]. rewrite IH. apply orb_true_r.
Qed.

(** A suffix that holds no separator is looked for after the last one. *)
Lemma endswith_after_sep c suffix a f :
  has_char c suffix = false ->
  endswith suffix (a +:+ String c f) = endswith suffix f.
Proof.
  intros Hs.
  assert (Hne : forall x, has_char c x = true -> String.eqb x suffix = false).
  { intros x Hx. destruct (String.eqb_spec x suffix) as [->|]; congruence. }
  induction a as [|x a IH].
  - rewrite app_nil_l. cbn [endswith].
    rewrite (Hne (String c f)); [reflexivity|].
    cbn [has_char]. now rewrite Ascii.eqb_refl.
  - rewrite app_cons. cbn [endswith].
    rewrite IH. rewrite (Hne (String x (a +:+ String c f))); [reflexivity|].
    cbn [has_char]. rewrite has_char_app_sep. apply orb_true_r.
Qed.

Lemma startswith_app needle rest : startswith needle (needle +:+ rest) = true.
Proof.
  induction needle as [|c n IH]; [reflexivity|].
  rewrite app_cons. cbn [startswith]. now rewrite Ascii.eqb_refl, IH.
Qed.

Lemma contains_app needle pre post :
  contains needle (pre +:+ needle +:+ post) = true.
Proof.
  induction pre as [|c pre IH].
  - rewrite app_nil_l.
    pose proof (startswith_app needle post) as Hs.
    destruct (needle +:+ post); cbn [contains]; now rewrite Hs.
  - rewrite app_cons. cbn [contains]. rewrite IH. apply orb_true_r.
Qed.

Lemma string_app_assoc (a b c : string) : (a +:+ b) +:+ c = a +:+ b +:+ c.
Proof.
  induction a as [|x a IH]; [reflexivity|].
  rewrite !app_cons. now rewrite IH.
Qed.

Lemma string_app_nil_r (a : string) : a +:+ "" = a.
Proof.
  induction a as [|x a IH]; [reflexivity|].
  rewrite app_cons. now rewrite IH.
Qed.

Lemma contains_app_r needle pre : contains needle (pre +:+ needle) = true.
Proof. rewrite <- (string_app_nil_r needle) at 2. apply contains_app. Qed.

(** A request with a non-empty relative path is the component name, a
    slash, and that relative path. *)
Lemma path_decomposition path :
  relative_path path <> "" ->
  path = first_part (split slash path) +:+ String slash (relative_path path).
Proof.
  unfold relative_path, first_part. intros Hrel.
  pose proof (join_split slash path) as Hj.
  destruct (split slash path) as [|a [|b rest]]; cbn [join List.tl List.hd] in *;
    [congruence|congruence|].
  now rewrite <- Hj.
Qed.

End string_facts.

(** * The asset handler *)

Section handler_facts.

Context (os : Platform) (registry : ComponentRegistry).

(** The value of the [Cache-Control] header [set_extra_headers] chooses. *)
Lemma set_extra_headers_run path h :
  set_extra_headers path h =
  (Ok tt,
   {| status := status h;
      headers := <["Cache-Control" :=
                    if Nat.eqb (String.length path) 0 || endswith ".html" path
                    then "no-cache" else "public"]> (headers h);
      body := body h; opened := opened h; handler_log := handler_log h |}).
Proof.
  unfold set_extra_headers.
  destruct (Nat.eqb (String.length path) 0 || endswith ".html" path); reflexivity.
Qed.

(** An unresolved component name: 404, nothing opened, no header touched. *)
Lemma get_unresolved path h :
  get_component_path os registry (first_part (split slash path)) = None ->
  get os registry path h =
  (Ok tt,
   {| status := 404; headers := headers h;
      body := body h +:+ (path +:+ " not found");
      opened := opened h; handler_log := handler_log h |}).
Proof. intros Hnone. unfold get. rewrite Hnone. reflexivity. Qed.

(** A read that raises an [OSError]: 404 with the error text. *)
Lemma get_read_OSError path h root e :
  get_component_path os registry (first_part (split slash path)) = Some root ->
  open_read os (os_path_join root (relative_path path)) = Raise e ->
  is_OSError e = true ->
  get os registry path h =
  (Ok tt,
   {| status := 404; headers := headers h;
      body := body h +:+ (path +:+ " read error: " +:+ exn_str e);
      opened := opened h ++ [os_path_join root (relative_path path)];
      handler_log := handler_log h
                     ++ [debug_record path (os_path_join root (relative_path path))] |}).
Proof.
  intros Hroot Hread Hos. unfold get. rewrite Hroot.
  unfold relative_path in Hread.
  unfold bind, try_except, open_and_read, handler_logger, modify, lift, bind; simpl.
  rewrite Hread, Hos. reflexivity.
Qed.

(** A read that raises anything else: the exception leaves the handler. *)
Lemma get_read_other_exception path h root e :
  get_component_path os registry (first_part (split slash path)) = Some root ->
  open_read os (os_path_join root (relative_path path)) = Raise e ->
  is_OSError e = false ->
  get os registry path h =
  (Raise e,
   {| status := status h; headers := headers h; body := body h;
      opened := opened h ++ [os_path_join root (relative_path path)];
      handler_log := handler_log h
                     ++ [debug_record path (os_path_join root (relative_path path))] |}).
Proof.
  intros Hroot Hread Hos. unfold get. rewrite Hroot.
  unfold relative_path in Hread.
  unfold bind, try_except, open_and_read, handler_logger, modify, lift, bind; simpl.
  rewrite Hread, Hos. reflexivity.
Qed.

(** A successful read: the file is the body, and both headers are set. *)
Lemma get_served path h root contents :
  get_component_path os registry (first_part (split slash path)) = Some root ->
  open_read os (os_path_join root (relative_path path)) = Ok contents ->
  get os registry path h =
  (Ok tt,
   {| status := status h;
      headers := <["Cache-Control" :=
                    if Nat.eqb (String.length path) 0 || endswith ".html" path
                    then "no-cache" else "public"]>
                 (<["Content-Type" :=
                     get_content_type os (os_path_join root (relative_path path))]>
                    (headers h));
      body := body h +:+ contents;
      opened := opened h ++ [os_path_join root (relative_path path)];
      handler_log := handler_log h
                     ++ [debug_record path (os_path_join root (relative_path path))] |}).
Proof.
  intros Hroot Hread. unfold get. rewrite Hroot.
  unfold relative_path in Hread.
  unfold bind at 1 2. unfold try_except, open_and_read, handler_logger, modify, lift.
  unfold bind at 3 4. simpl. rewrite Hread. simpl.
  unfold bind, write, set_header, modify. simpl.
  rewrite set_extra_headers_run. reflexivity.
Qed.

(** Whatever the relative path is, the file opened is the plain join of
    the component's root with it. *)
Lemma get_opens_plain_join path h root :
  get_component_path os registry (first_part (split slash path)) = Some root ->
  opened (snd (get os registry path h))
  = opened h ++ [os_path_join root (relative_path path)].
Proof.
  intros Hroot.
  destruct (open_read os (os_path_join root (relative_path path))) as [c|e] eqn:Hread.
  - now rewrite (get_served path h root c Hroot Hread).
  - destruct (is_OSError e) eqn:Hos.
    + now rewrite (get_read_OSError path h root e Hroot Hread Hos).
    + now rewrite (get_read_other_exception path h root e Hroot Hread Hos).
Qed.

(** [os.path.join] lets a second part that starts with a slash replace the
    first. *)
Lemma os_path_join_absolute root rest :
  os_path_join root (String slash rest) = String slash rest.
Proof. unfold os_path_join. cbn [startswith]. now rewrite Ascii.eqb_refl. Qed.

End handler_facts.

(** * Claims about the asset handler *)

(** C3, as the specification states it, fails: a request for the component
    name alone has an empty relative path, yet the handler answers 404 (the
    path it opens is the component's directory) and sets no [Cache-Control]
    header at all. *)
Lemma C3_counterexample_name_alone :
  ~ cache_control_as_stated demo_os demo_registry "comp" new_handler.
Proof.
  unfold cache_control_as_stated. intros [_ Hback].
  assert (Hrel : relative_path "comp" = "" \/
                 endswith ".html" (relative_path "comp") = true)
    by (left; reflexivity).
  specialize (Hback Hrel). vm_compute in Hback. discriminate.
Qed.

(** C3 (amended): when the component resolves, the file is read and the
    relative path is not empty, the response carries [Cache-Control:
    no-cache] if the relative path ends in [.html] and [Cache-Control:
    public] otherwise; a request that ends in 404, because the component
    does not resolve or because the read raises an [OSError], leaves the
    [Cache-Control] header as it was. *)
Theorem C3_cache_control_of_served_files os registry path h :
  (forall root contents,
     get_component_path os registry (first_part (split slash path)) = Some root ->
     open_read os (os_path_join root (relative_path path)) = Ok contents ->
     relative_path path <> "" ->
     fst (get os registry path h) = Ok tt
     /\ status (snd (get os registry path h)) = status h
     /\ headers (snd (get os registry path h)) !! "Cache-Control"
        = Some (if endswith ".html" (relative_path path)
                then "no-cache" else "public"))
  /\ (get_component_path os registry (first_part (split slash path)) = None ->
      status (snd (get os registry path h)) = 404
      /\ headers (snd (get os registry path h)) !! "Cache-Control"
         = headers h !! "Cache-Control")
  /\ (forall root e,
        get_component_path os registry (first_part (split slash path)) = Some root ->
        open_read os (os_path_join root (relative_path path)) = Raise e ->
        is_OSError e = true ->
        status (snd (get os registry path h)) = 404
        /\ headers (snd (get os registry path h)) !! "Cache-Control"
           = headers h !! "Cache-Control").
Proof.
  split; [|split].
  - intros root contents Hroot Hread Hrel.
    rewrite (get_served os registry path h root contents Hroot Hread).
    cbn [fst snd status headers]. repeat split.
    rewrite lookup_insert_eq. f_equal.
    pose proof (path_decomposition path Hrel) as Hpath.
    assert (Hlen : Nat.eqb (String.length path) 0 = false).
    { rewrite Hpath. apply Nat.eqb_neq.
      destruct (first_part (split slash path)); cbn; discriminate. }
    rewrite Hlen, orb_false_l.
    rewrite Hpath at 1.
    now rewrite (endswith_after_sep slash ".html") by reflexivity.
  - intros Hnone. rewrite (get_unresolved os registry path h Hnone).
    cbn [snd status headers]. split; reflexivity.
  - intros root e Hroot Hread Hos.
    rewrite (get_read_OSError os registry path h root e Hroot Hread Hos).
    cbn [snd status headers]. split; reflexivity.
Qed.

Lemma C3_witness_served_html :
  headers (snd (get demo_os demo_registry "comp/index.html" new_handler))
    !! "Cache-Control" = Some "no-cache"
  /\ headers (snd (get demo_os demo_registry "comp/sub/file.css" new_handler))
       !! "Cache-Control" = Some "public"
  /\ headers (snd (get demo_os demo_registry "comp/missing.html" new_handler))
       !! "Cache-Control" = None.
Proof.
  split; [|split].
  - apply (proj1 (C3_cache_control_of_served_files
                    demo_os demo_registry "comp/index.html" new_handler)
                 "/srv/comp" "<html></html>").
    + vm_compute. reflexivity.
    + vm_compute. reflexivity.
    + vm_compute. discriminate.
  - apply (proj1 (C3_cache_control_of_served_files
                    demo_os demo_registry "comp/sub/file.css" new_handler)
                 "/srv/comp" "body{}").
    + vm_compute. reflexivity.
    + vm_compute. reflexivity.
    + vm_compute. discriminate.
  - apply (proj2 (proj2 (C3_cache_control_of_served_files
                           demo_os demo_registry "comp/missing.html" new_handler))
                 "/srv/comp"
                 (OSError "[Errno 2] No such file or directory: '/srv/comp/missing.html'")).
    + vm_compute. reflexivity.
    + vm_compute. reflexivity.
    + reflexivity.
Defined.

(** C4: the code does not keep the opened path inside the component's root.
    A [..] segment is joined as it is, and a relative path that starts with
    a slash replaces the root altogether; both files are read and served
    with status 200. *)
Theorem C4_opened_path_escapes_root :
  get_component_path demo_os demo_registry "comp" = Some "/srv/comp"
  /\ opened (snd (get demo_os demo_registry "comp/../secret.txt" new_handler))
     = ["/srv/comp/../secret.txt"]
  /\ normpath "/srv/comp/../secret.txt" = "/srv/secret.txt"
  /\ within_root "/srv/comp" "/srv/comp/../secret.txt" = false
  /\ status (snd (get demo_os demo_registry "comp/../secret.txt" new_handler)) = 200
  /\ body (snd (get demo_os demo_registry "comp/../secret.txt" new_handler)) = "hunter2"
  /\ opened (snd (get demo_os demo_registry "comp//etc/passwd" new_handler))
     = ["/etc/passwd"]
  /\ within_root "/srv/comp" "/etc/passwd" = false
  /\ status (snd (get demo_os demo_registry "comp//etc/passwd" new_handler)) = 200
  /\ ~ stays_within_root demo_os demo_registry "comp/../secret.txt" new_handler
  /\ ~ stays_within_root demo_os demo_registry "comp//etc/passwd" new_handler.
Proof.
  repeat split; try (vm_compute; reflexivity).
  - intros Hin. specialize (Hin "/srv/comp" ltac:(vm_compute; reflexivity)
                               "/srv/comp/../secret.txt").
    destruct Hin as [[]|Hw]; [vm_compute; auto|].
    vm_compute in Hw. discriminate.
  - intros Hin. specialize (Hin "/srv/comp" ltac:(vm_compute; reflexivity)
                               "/etc/passwd").
    destruct Hin as [[]|Hw]; [vm_compute; auto|].
    vm_compute in Hw. discriminate.
Qed.

(** C5: the code breaks the claim.  The handler turns a failed read into
    a 404 with the body "<path> read error: <detail>", but only for
    [OSError] and its subclasses.  A file that cannot be decoded as text
    (here a PNG image in the component's directory) makes the read raise
    [UnicodeDecodeError]; that exception is not caught: it leaves the
    handler with no body written and the status still 200, where the claim
    says 404 with the error detail and nothing propagated. *)
Theorem C5_decode_error_propagates :
  get_component_path demo_os demo_registry
    (first_part (split slash "comp/logo.png")) = Some "/srv/comp"
  /\ open_read demo_os (os_path_join "/srv/comp" (relative_path "comp/logo.png"))
     = Raise (UnicodeDecodeError
                "'utf-8' codec can't decode byte 0x89 in position 0: invalid start byte")
  /\ fst (get demo_os demo_registry "comp/logo.png" new_handler)
     = Raise (UnicodeDecodeError
                "'utf-8' codec can't decode byte 0x89 in position 0: invalid start byte")
  /\ status (snd (get demo_os demo_registry "comp/logo.png" new_handler)) = 200
  /\ body (snd (get demo_os demo_registry "comp/logo.png" new_handler)) = ""
  /\ ~ read_failure_as_stated demo_os demo_registry "comp/logo.png" new_handler.
Proof.
  repeat split; try (vm_compute; reflexivity).
  intros Hclaim.
  destruct (Hclaim "/srv/comp"
              (UnicodeDecodeError
                 "'utf-8' codec can't decode byte 0x89 in position 0: invalid start byte")
              ltac:(vm_compute; reflexivity) ltac:(vm_compute; reflexivity))
    as [Hok _].
  vm_compute in Hok. discriminate.
Qed.

(** The handled path beside it: when the component resolves and reading the
    joined path raises an [OSError] (missing file, permission denied, a
    directory, ...), the handler answers 404 with the body
    "<path> read error: <detail>" and raises nothing; the [except] clause
    names no other class. *)
Theorem read_OSError_becomes_404 os registry path h root e :
  get_component_path os registry (first_part (split slash path)) = Some root ->
  open_read os (os_path_join root (relative_path path)) = Raise e ->
  (is_OSError e = true ->
     fst (get os registry path h) = Ok tt
     /\ status (snd (get os registry path h)) = 404
     /\ body (snd (get os registry path h))
        = body h +:+ (path +:+ " read error: " +:+ exn_str e)
     /\ contains (exn_str e) (body (snd (get os registry path h))) = true)
  /\ (is_OSError e = false -> fst (get os registry path h) = Raise e).
Proof.
  intros Hroot Hread. split; intros Hos.
  - rewrite (get_read_OSError os registry path h root e Hroot Hread Hos).
    cbn [fst snd status body]. repeat split.
    rewrite <- !string_app_assoc. apply contains_app_r.
  - now rewrite (get_read_other_exception os registry path h root e Hroot Hread Hos).
Qed.

Lemma read_OSError_becomes_404_witness :
  (fst (get demo_os demo_registry "comp/missing.js" new_handler) = Ok tt
   /\ status (snd (get demo_os demo_registry "comp/missing.js" new_handler)) = 404)
  /\ fst (get demo_os demo_registry "comp/logo.png" new_handler)
     = Raise (UnicodeDecodeError
                "'utf-8' codec can't decode byte 0x89 in position 0: invalid start byte").
Proof.
  split.
  - destruct (proj1 (read_OSError_becomes_404 demo_os demo_registry "comp/missing.js"
                       new_handler "/srv/comp"
                       (OSError "[Errno 2] No such file or directory: '/srv/comp/missing.js'")
                       ltac:(vm_compute; reflexivity) ltac:(vm_compute; reflexivity))
                    eq_refl) as (Hok & Hst & _).
    split; assumption.
  - apply (proj2 (read_OSError_becomes_404 demo_os demo_registry "comp/logo.png"
                    new_handler "/srv/comp"
                    (UnicodeDecodeError
                       "'utf-8' codec can't decode byte 0x89 in position 0: invalid start byte")
                    ltac:(vm_compute; reflexivity) ltac:(vm_compute; reflexivity))
                 eq_refl).
Defined.

(** C6: when the first segment of the request path names no registered
    component, or one that was declared with a url, the registry lookup
    gives nothing and the handler answers 404 with the body "<path> not
    found", which contains the request path; no file is opened and no
    header is set. *)
Theorem C6_unknown_or_url_backed_is_404 os registry path h :
  (_components registry !! first_part (split slash path) = None
   \/ exists c, _components registry !! first_part (split slash path) = Some c
                /\ url_backed c) ->
  get_component_path os registry (first_part (split slash path)) = None
  /\ fst (get os registry path h) = Ok tt
  /\ status (snd (get os registry path h)) = 404
  /\ body (snd (get os registry path h)) = body h +:+ (path +:+ " not found")
  /\ contains path (body (snd (get os registry path h))) = true
  /\ opened (snd (get os registry path h)) = opened h
  /\ headers (snd (get os registry path h)) = headers h.
Proof.
  intros Hreg.
  assert (Hnone : get_component_path os registry (first_part (split slash path)) = None).
  { unfold get_component_path.
    destruct Hreg as [-> | (c & -> & u & Hinit)]; [reflexivity|].
    unfold CustomComponent.init in Hinit. injection Hinit as Hc.
    unfold CustomComponent.abspath. now rewrite <- Hc. }
  split; [exact Hnone|].
  rewrite (get_unresolved os registry path h Hnone).
  cbn [fst snd status body opened headers]. repeat split.
  apply contains_app.
Qed.

Lemma C6_witness_url_backed :
  status (snd (get demo_os demo_registry "remote/index.html" new_handler)) = 404
  /\ opened (snd (get demo_os demo_registry "remote/index.html" new_handler)) = [].
Proof.
  destruct (C6_unknown_or_url_backed_is_404 demo_os demo_registry
              "remote/index.html" new_handler) as (_ & _ & Hst & _ & _ & Hop & _).
  - right. exists demo_remote. split; [vm_compute; reflexivity|].
    exists "http://localhost:3001". reflexivity.
  - split; assumption.
Defined.

(** * The registry *)

Section registry_facts.

Context (os : Platform).

Lemma option_string_eqb_eq a b :
  CustomComponent.option_string_eqb a b = true <-> a = b.
Proof.
  destruct a as [x|], b as [y|]; cbn; try (split; congruence).
  rewrite String.eqb_eq. split; congruence.
Qed.

(** [__eq__] decides equality of declarations. *)
Lemma component_eqb_eq a b : CustomComponent.eqb a b = true <-> a = b.
Proof.
  unfold CustomComponent.eqb. rewrite !andb_true_iff, String.eqb_eq.
  rewrite !option_string_eqb_eq.
  destruct a as [n p u], b as [n' p' u']; cbn. split.
  - intros [[-> ->] ->]. reflexivity.
  - intros [= -> -> ->]. auto.
Qed.

Lemma component_neb_true a b : CustomComponent.neb a b = true <-> a <> b.
Proof.
  unfold CustomComponent.neb. rewrite negb_true_iff.
  rewrite <- component_eqb_eq. destruct (CustomComponent.eqb a b); split; congruence.
Qed.

Lemma warnings_app l l' : warnings (l ++ l') = warnings l ++ warnings l'.
Proof. unfold warnings. now rewrite filter_app, map_app. Qed.

(** A declaration whose directory is missing is refused; the registry and
    its log stay as they were. *)
Lemma register_component_refused component reg :
  valid_location os component = false ->
  exists p,
    CustomComponent.abspath os component = Some p
    /\ register_component os component reg
       = (Raise (StreamlitAPIException
                   ("No such component directory: '" +:+ p +:+ "'")), reg).
Proof.
  unfold valid_location, register_component.
  destruct (CustomComponent.abspath os component) as [p|]; [|discriminate].
  intros Hdir. exists p. split; [reflexivity|].
  unfold bind. rewrite Hdir. reflexivity.
Qed.

(** A declaration that passes the check replaces whatever its name was
    bound to, and the log grows by [registration_records]. *)
Lemma register_component_accepted component reg :
  valid_location os component = true ->
  register_component os component reg
  = (Ok tt,
     {| _components := <[CustomComponent.name component := component]> (_components reg);
        registry_log :=
          registry_log reg
          ++ registration_records component
               (_components reg !! CustomComponent.name component) |}).
Proof.
  unfold valid_location, register_component, registration_records.
  intros Hdir.
  assert (Hcheck :
    forall r : ComponentRegistry,
      match CustomComponent.abspath os component with
      | Some p =>
          if negb (isdir os p)
          then raise (StreamlitAPIException
                        ("No such component directory: '" +:+ p +:+ "'"))
          else ret tt
      | None => ret tt
      end r = (Ok tt, r)).
  { intros r. destruct (CustomComponent.abspath os component) as [p|];
      [rewrite Hdir|]; reflexivity. }
  unfold bind at 1. rewrite Hcheck.
  unfold bind, gets, set_component, registry_logger, modify. cbn.
  destruct (_components reg !! CustomComponent.name component) as [e|]; cbn.
  - destruct (CustomComponent.neb component e); cbn;
      rewrite <- ?app_assoc; reflexivity.
  - reflexivity.
Qed.

End registry_facts.

(** C7: declaring a component fails with a [StreamlitAPIException] exactly
    when both or neither of path and url are given or the given path's
    absolute form is not an existing directory, and then the registry is
    left as it was; a declaration with an existing local path succeeds, and
    afterwards the registry resolves the component's name to the absolute
    form of that path. *)
Theorem C7_declaration_errors os caller path url reg :
  ((exists msg, fst (declare_component os caller path url reg)
                = Raise (StreamlitAPIException msg))
   <-> misconfigured os path url)
  /\ (forall e, fst (declare_component os caller path url reg) = Raise e ->
                snd (declare_component os caller path url reg) = reg)
  /\ (forall p,
        path = Some p -> url = None ->
        isdir os (os_path_abspath (getcwd os) p) = true ->
        exists reg',
          declare_component os caller path url reg
          = (Ok {| CustomComponent.name := component_name_of caller;
                   CustomComponent.path := Some p;
                   CustomComponent.url := None |}, reg')
          /\ forall os',
               get_component_path os' reg' (component_name_of caller)
               = Some (os_path_abspath (getcwd os') p)).
Proof.
  unfold declare_component, misconfigured.
  destruct path as [p|], url as [u|]; cbn [CustomComponent.init lift].
  - (* both *)
    unfold bind. cbn. repeat split.
    + intros _. right. left. eauto.
    + intros _. eauto.
    + discriminate.
  - (* a local path *)
    set (c := {| CustomComponent.name := component_name_of caller;
                 CustomComponent.path := Some p; CustomComponent.url := None |}).
    unfold bind at 1. cbn.
    destruct (isdir os (os_path_abspath (getcwd os) p)) eqn:Hdir.
    + assert (Hv : valid_location os c = true) by (unfold valid_location; cbn; exact Hdir).
      unfold bind. rewrite (register_component_accepted os c reg Hv). cbn.
      repeat split.
      * intros [msg Hmsg]. discriminate.
      * intros [[H _]|[(p' & u' & _ & H)|(p' & H & Hd)]]; try discriminate.
        injection H as <-. congruence.
      * discriminate.
      * intros p' [= <-] _ _. eexists. split; [reflexivity|].
        intros os'. unfold get_component_path. cbn.
        now rewrite lookup_insert_eq.
    + assert (Hv : valid_location os c = false) by (unfold valid_location; cbn; exact Hdir).
      destruct (register_component_refused os c reg Hv) as (q & _ & Hrun).
      unfold bind. rewrite Hrun. cbn. repeat split.
      * intros _. right. right. eauto.
      * intros _. eauto.
      * intros p' [= <-] _ Hd. congruence.
  - (* a url *)
    set (c := {| CustomComponent.name := component_name_of caller;
                 CustomComponent.path := None; CustomComponent.url := Some u |}).
    assert (Hv : valid_location os c = true) by reflexivity.
    unfold bind at 1. cbn.
    unfold bind. rewrite (register_component_accepted os c reg Hv). cbn.
    repeat split.
    + intros [msg Hmsg]. discriminate.
    + intros [[_ H]|[(p' & u' & H & _)|(p' & H & _)]]; discriminate.
    + discriminate.
    + discriminate.
  - (* neither *)
    unfold bind. cbn. repeat split.
    + intros _. left. auto.
    + intros _. eauto.
    + discriminate.
Qed.

Lemma C7_witness_existing_directory :
  exists reg',
    declare_component demo_os
      {| module_name := "__main__"; file_path := "/home/u/my_component.py" |}
      (Some "/srv/comp") None ComponentRegistry_init
    = (Ok {| CustomComponent.name := "my_component";
             CustomComponent.path := Some "/srv/comp";
             CustomComponent.url := None |}, reg')
    /\ get_component_path demo_os reg' "my_component" = Some "/srv/comp".
Proof.
  destruct (proj2 (proj2 (C7_declaration_errors demo_os
              {| module_name := "__main__"; file_path := "/home/u/my_component.py" |}
              (Some "/srv/comp") None ComponentRegistry_init))
              "/srv/comp" eq_refl eq_refl eq_refl) as (reg' & Hrun & Hget).
  exists reg'. split; [exact Hrun|exact (Hget demo_os)].
Defined.

(** C8: registering, under a name that is already registered, a declaration
    that passes the directory check: if it equals the registered one no
    warning is logged; if it differs exactly one warning is logged, whose
    text names both declarations; either way the registry then maps the
    name to the new declaration and every other name to what it had. *)
Theorem C8_reregistration os reg component existing :
  _components reg !! CustomComponent.name component = Some existing ->
  valid_location os component = true ->
  exists reg',
    register_component os component reg = (Ok tt, reg')
    /\ _components reg' !! CustomComponent.name component = Some component
    /\ (forall n, n <> CustomComponent.name component ->
                  _components reg' !! n = _components reg !! n)
    /\ (component = existing ->
        warnings (registry_log reg') = warnings (registry_log reg))
    /\ (component <> existing ->
        warnings (registry_log reg')
        = warnings (registry_log reg) ++ [override_message component existing]
        /\ contains (CustomComponent.str component)
                    (override_message component existing) = true
        /\ contains (CustomComponent.str existing)
                    (override_message component existing) = true).
Proof.
  intros Hex Hv. eexists. split; [apply (register_component_accepted os _ _ Hv)|].
  cbn [_components registry_log]. rewrite Hex.
  split; [apply lookup_insert_eq|].
  split; [intros n Hn; now apply lookup_insert_ne|].
  unfold registration_records. split.
  - intros Heq.
    assert (Hne : CustomComponent.neb component existing = false).
    { unfold CustomComponent.neb. apply negb_false_iff. now apply component_eqb_eq. }
    rewrite Hne, warnings_app. cbn. now rewrite app_nil_r.
  - intros Hdiff. apply component_neb_true in Hdiff. rewrite Hdiff.
    rewrite !warnings_app. cbn. rewrite app_nil_r. split; [reflexivity|].
    unfold override_message. split.
    + apply (contains_app _ "").
    + rewrite <- string_app_assoc. apply contains_app_r.
Qed.

Lemma C8_witness_override :
  exists reg',
    register_component demo_os
      {| CustomComponent.name := "remote"; CustomComponent.path := Some "/srv/comp";
         CustomComponent.url := None |} demo_registry = (Ok tt, reg')
    /\ warnings (registry_log reg')
       = ["'remote': /srv/comp overriding previously-registered 'remote': http://localhost:3001"].
Proof.
  destruct (C8_reregistration demo_os demo_registry
              {| CustomComponent.name := "remote"; CustomComponent.path := Some "/srv/comp";
                 CustomComponent.url := None |} demo_remote
              ltac:(vm_compute; reflexivity) ltac:(vm_compute; reflexivity))
    as (reg' & Hrun & _ & _ & _ & Hwarn).
  exists reg'. split; [exact Hrun|].
  destruct (Hwarn ltac:(discriminate)) as [Hw _]. exact Hw.
Defined.

(** * The instance protocol *)

Section builder_facts.

Context (host : Host).

Lemma element_eta (e : Element) :
  {| component_instance :=
       {| ComponentInstance.id := ComponentInstance.id (component_instance e);
          ComponentInstance.component_name :=
            ComponentInstance.component_name (component_instance e);
          ComponentInstance.url := ComponentInstance.url (component_instance e);
          ComponentInstance.args_json := ComponentInstance.args_json (component_instance e);
          ComponentInstance.args_dataframe :=
            ComponentInstance.args_dataframe (component_instance e) |} |} = e.
Proof. destruct e as [[]]. reflexivity. Qed.

(** The loop of [marshall_element_args] appends one message per entry of
    [args_df], in order, and changes nothing else. *)
Lemma append_loop_run args_df b :
  for_each args_df (fun kv =>
    let new_args_dataframe :=
      {| ArgsDataframe.key := fst kv;
         ArgsDataframe.value_data := arrow_table_marshall host (snd kv) |} in
    update_instance (ComponentInstance.append_args_dataframe new_args_dataframe)
                    (AppendArgsDataframe new_args_dataframe)) b
  = (Ok tt,
     {| element :=
          with_args (ComponentInstance.args_json (component_instance (element b)))
                    (args_dataframes host args_df) (element b);
        events := events b ++ map AppendArgsDataframe (args_dataframes host args_df) |}).
Proof.
  revert b. induction args_df as [|kv rest IH]; intros [e evs].
  - cbn. unfold ret, with_args. cbn. rewrite !app_nil_r.
    now rewrite element_eta.
  - cbn [for_each]. unfold bind at 1. unfold update_instance at 1, modify.
    rewrite IH. cbn. unfold with_args. cbn.
    rewrite <- !app_assoc. reflexivity.
Qed.

Lemma marshall_element_args_run serialized args_df b :
  marshall_element_args host serialized args_df b
  = (Ok tt,
     {| element := with_args serialized (args_dataframes host args_df) (element b);
        events := events b ++ args_events serialized (args_dataframes host args_df) |}).
Proof.
  unfold marshall_element_args. unfold bind, update_instance at 1, modify.
  rewrite append_loop_run. cbn. unfold with_args, args_events. cbn.
  rewrite <- app_assoc. reflexivity.
Qed.

Lemma naming_run self b :
  (update_instance (ComponentInstance.set_component_name (CustomComponent.name self))
                  (SetComponentName (CustomComponent.name self)) ;;
   match CustomComponent.url self with
   | Some u => update_instance (ComponentInstance.set_url u) (SetUrl u)
   | None => ret tt
   end) b
  = (Ok tt, {| element := named self (element b);
               events := events b ++ naming_events self |}).
Proof.
  unfold bind, update_instance, modify, named, naming_events.
  destruct (CustomComponent.url self); cbn; rewrite <- ?app_assoc; reflexivity.
Qed.

(** What one run of the builder does, in full. *)
Lemma marshall_component_run self default key serialized args_df b :
  let dfs := args_dataframes host args_df in
  let seen := if is_None key
              then with_args serialized dfs (named self (element b))
              else named self (element b) in
  let answer := _get_widget_ui_value host "component_instance" seen key
                  (CustomComponent.name self) in
  let widget_value := if is_None (snd answer) then default else snd answer in
  marshall_component host self default key serialized args_df b
  = (Ok (if negb (is_None widget_value) then widget_value else NoValue),
     {| element := if is_None key then fst answer
                   else with_args serialized dfs (fst answer);
        events := events b ++ naming_events self
                  ++ (if is_None key then args_events serialized dfs else [])
                  ++ [GetWidgetUiValue "component_instance" seen key
                        (CustomComponent.name self)]
                  ++ (if is_None key then [] else args_events serialized dfs) |}).
Proof.
  cbv zeta. unfold marshall_component, named, naming_events.
  destruct (CustomComponent.url self) as [u|], (is_None key) eqn:Hk;
    unfold bind, update_instance, modify, ret, request_widget_value;
    cbn [negb element events component_instance];
    rewrite ?marshall_element_args_run;
    unfold ComponentInstance.set_url, ComponentInstance.set_component_name;
    cbn [negb element events component_instance ComponentInstance.id
         ComponentInstance.component_name ComponentInstance.url
         ComponentInstance.args_json ComponentInstance.args_dataframe].
  all: match goal with
       | |- context [_get_widget_ui_value host ?t ?e ?k ?n] =>
           destruct (_get_widget_ui_value host t e k n) as [answered wv] eqn:Hans
       end.
  all: cbn [fst snd element events]; rewrite ?marshall_element_args_run;
       cbn [fst snd element events].
  all: rewrite <- ?app_assoc; cbn [app]; try reflexivity.
Qed.

End builder_facts.

(** The order in which the builder writes the arguments and asks the value
    store, for any element it is handed.
    Without a user key the builder writes the JSON blob and the tabular
    blobs and only then calls [_get_widget_ui_value], which is its last
    step and sees an element that holds them.  With a user key the call
    comes first, on an element in which this module has written the name
    and the url only (the argument fields are as they were on entry, empty
    for a fresh element); the arguments are written after the call, onto
    the element the call left, so the final element carries them. *)
Theorem builder_marshalling_order host self default key serialized args_df b :
  let dfs := args_dataframes host args_df in
  let after := snd (marshall_component host self default key serialized args_df b) in
  (is_None key = true ->
     let seen := with_args serialized dfs (named self (element b)) in
     events after
     = events b ++ naming_events self ++ args_events serialized dfs
       ++ [GetWidgetUiValue "component_instance" seen key (CustomComponent.name self)]
     /\ Forall (fun ev => is_value_request ev = false)
               (naming_events self ++ args_events serialized dfs)
     /\ ComponentInstance.args_json (component_instance seen) = serialized
     /\ ComponentInstance.args_dataframe (component_instance seen)
        = ComponentInstance.args_dataframe (component_instance (element b)) ++ dfs)
  /\ (is_None key = false ->
     let seen := named self (element b) in
     let answered := fst (_get_widget_ui_value host "component_instance" seen key
                            (CustomComponent.name self)) in
     events after
     = events b ++ naming_events self
       ++ [GetWidgetUiValue "component_instance" seen key (CustomComponent.name self)]
       ++ args_events serialized dfs
     /\ Forall (fun ev => is_args_write ev = false) (naming_events self)
     /\ Forall (fun ev => is_args_write ev = true) (args_events serialized dfs)
     /\ ComponentInstance.component_name (component_instance seen)
        = CustomComponent.name self
     /\ ComponentInstance.args_json (component_instance seen)
        = ComponentInstance.args_json (component_instance (element b))
     /\ ComponentInstance.args_dataframe (component_instance seen)
        = ComponentInstance.args_dataframe (component_instance (element b))
     /\ (element b = new_element ->
         component_instance seen
         = {| ComponentInstance.id := "";
              ComponentInstance.component_name := CustomComponent.name self;
              ComponentInstance.url :=
                match CustomComponent.url self with Some u => u | None => "" end;
              ComponentInstance.args_json := "";
              ComponentInstance.args_dataframe := [] |})
     /\ element after = with_args serialized dfs answered
     /\ ComponentInstance.args_json (component_instance (element after)) = serialized
     /\ ComponentInstance.args_dataframe (component_instance (element after))
        = ComponentInstance.args_dataframe (component_instance answered) ++ dfs).
Proof.
  cbv zeta. rewrite marshall_component_run. cbn [snd events element].
  split; intros Hk; rewrite Hk.
  - rewrite app_nil_r. repeat split.
    unfold naming_events, args_events.
    apply Forall_app. split.
    + destruct (CustomComponent.url self); repeat constructor.
    + constructor; [reflexivity|]. apply Forall_map, Forall_forall. reflexivity.
  - cbn [app]. repeat split.
    + unfold naming_events. destruct (CustomComponent.url self); repeat constructor.
    + unfold args_events. constructor; [reflexivity|].
      apply Forall_map, Forall_forall. reflexivity.
    + intros ->. reflexivity.
Qed.

Lemma builder_marshalling_order_witness :
  events (snd (marshall_component (demo_host PyNone) demo_remote PyNone (PyStr "k1")
                 "{'label': hi}" [("df", PyObject "DataFrame" "<df>")]
                 {| element := new_element; events := [] |}))
  = [SetComponentName "remote"; SetUrl "http://localhost:3001";
     GetWidgetUiValue "component_instance"
       {| component_instance :=
            {| ComponentInstance.id := "";
               ComponentInstance.component_name := "remote";
               ComponentInstance.url := "http://localhost:3001";
               ComponentInstance.args_json := "";
               ComponentInstance.args_dataframe := [] |} |}
       (PyStr "k1") "remote";
     SetArgsJson "{'label': hi}";
     AppendArgsDataframe {| ArgsDataframe.key := "df";
                            ArgsDataframe.value_data := "arrow:<df>" |}]
  /\ events (snd (marshall_component (demo_host PyNone) demo_remote PyNone PyNone
                    "{'label': hi}" [("df", PyObject "DataFrame" "<df>")]
                    {| element := new_element; events := [] |}))
     = [SetComponentName "remote"; SetUrl "http://localhost:3001";
        SetArgsJson "{'label': hi}";
        AppendArgsDataframe {| ArgsDataframe.key := "df";
                               ArgsDataframe.value_data := "arrow:<df>" |};
        GetWidgetUiValue "component_instance"
          {| component_instance :=
               {| ComponentInstance.id := "";
                  ComponentInstance.component_name := "remote";
                  ComponentInstance.url := "http://localhost:3001";
                  ComponentInstance.args_json := "{'label': hi}";
                  ComponentInstance.args_dataframe :=
                    [{| ArgsDataframe.key := "df";
                        ArgsDataframe.value_data := "arrow:<df>" |}] |} |}
          PyNone "remote"].
Proof.
  split.
  - destruct (proj2 (builder_marshalling_order (demo_host PyNone) demo_remote PyNone
                       (PyStr "k1") "{'label': hi}"
                       [("df", PyObject "DataFrame" "<df>")]
                       {| element := new_element; events := [] |}) eq_refl)
      as [Hev _].
    exact Hev.
  - destruct (proj1 (builder_marshalling_order (demo_host PyNone) demo_remote PyNone
                       PyNone "{'label': hi}"
                       [("df", PyObject "DataFrame" "<df>")]
                       {| element := new_element; events := [] |}) eq_refl)
      as [Hev _].
    exact Hev.
Defined.

Section call_binding.

(** Python gives a keyword-only parameter the value the call wrote under
    its name (names in a call are distinct), else its default. *)
Lemma keyword_or_None_passes kws param v :
  List.NoDup (dict_keys kws) -> passes kws param v -> keyword_or_None param kws = v.
Proof.
  unfold passes, dict_keys.
  induction kws as [|[k0 v0] rest IH]; intros Hnd Hpass; cbn [keyword_or_None].
  - destruct Hpass as [[]|[_ ->]]. reflexivity.
  - cbn [map fst] in Hnd. inversion Hnd as [|? ? Hk Hrest]; subst.
    destruct (String.eqb_spec k0 param) as [->|Hne].
    + destruct Hpass as [[[= ->]|Hin]|[Hnot _]].
      * reflexivity.
      * exfalso. apply Hk. apply in_map_iff. now exists (param, v).
      * exfalso. apply Hnot. now left.
    + apply IH; [exact Hrest|].
      destruct Hpass as [[[= -> _]|Hin]|[Hnot ->]].
      * congruence.
      * now left.
      * right. split; [|reflexivity]. intros Hin. apply Hnot. now right.
Qed.

End call_binding.

(** C1: the order of writing the arguments and asking the value store, for
    a call of a component.  Take a call without positional arguments whose
    JSON arguments serialise and whose target is a DeltaGenerator.  If the
    call passes no key (or [None]), the JSON blob and the tabular blobs
    made from the call's other keywords are written into the fresh element
    first and [_get_widget_ui_value] is called last, on an element that
    holds them; the element enqueued is the one that call left.  If the
    call passes a key, [_get_widget_ui_value] is called with that key
    first, on a fresh element in which only the name and the url are set,
    and the arguments are written after it; the element enqueued is the
    one the call left with the arguments added, so it carries them. *)
Theorem C1_call_marshalling_order host self kws app key dg serialized :
  List.NoDup (dict_keys kws) ->
  passes kws "key" key ->
  writes_to host kws dg ->
  json_dumps host (fst (partition_kwargs host (remaining_keywords kws))) = Ok serialized ->
  (is_None key = true ->
     app_events (snd (call host self {| positional := []; keywords := kws |} app))
     = app_events app ++ naming_events self
       ++ args_events serialized
            (args_dataframes host (snd (partition_kwargs host (remaining_keywords kws))))
       ++ [GetWidgetUiValue "component_instance"
             (with_args serialized
                (args_dataframes host (snd (partition_kwargs host (remaining_keywords kws))))
                (named self new_element))
             key (CustomComponent.name self)]
     /\ Forall (fun ev => is_value_request ev = false)
          (naming_events self
           ++ args_events serialized
                (args_dataframes host
                   (snd (partition_kwargs host (remaining_keywords kws)))))
     /\ ComponentInstance.args_json
          (component_instance
             (with_args serialized
                (args_dataframes host (snd (partition_kwargs host (remaining_keywords kws))))
                (named self new_element))) = serialized
     /\ ComponentInstance.args_dataframe
          (component_instance
             (with_args serialized
                (args_dataframes host (snd (partition_kwargs host (remaining_keywords kws))))
                (named self new_element)))
        = args_dataframes host (snd (partition_kwargs host (remaining_keywords kws)))
     /\ queues (snd (call host self {| positional := []; keywords := kws |} app)) !! dg
        = Some (queue_of app dg
                ++ [("component",
                     fst (_get_widget_ui_value host "component_instance"
                            (with_args serialized
                               (args_dataframes host
                                  (snd (partition_kwargs host (remaining_keywords kws))))
                               (named self new_element))
                            key (CustomComponent.name self)))]))
  /\ (is_None key = false ->
     app_events (snd (call host self {| positional := []; keywords := kws |} app))
     = app_events app ++ naming_events self
       ++ [GetWidgetUiValue "component_instance" (named self new_element)
             key (CustomComponent.name self)]
       ++ args_events serialized
            (args_dataframes host (snd (partition_kwargs host (remaining_keywords kws))))
     /\ Forall (fun ev => is_args_write ev = false) (naming_events self)
     /\ Forall (fun ev => is_args_write ev = true)
          (args_events serialized
             (args_dataframes host (snd (partition_kwargs host (remaining_keywords kws)))))
     /\ component_instance (named self new_element)
        = {| ComponentInstance.id := "";
             ComponentInstance.component_name := CustomComponent.name self;
             ComponentInstance.url :=
               match CustomComponent.url self with Some u => u | None => "" end;
             ComponentInstance.args_json := "";
             ComponentInstance.args_dataframe := [] |}
     /\ queues (snd (call host self {| positional := []; keywords := kws |} app)) !! dg
        = Some (queue_of app dg
                ++ [("component",
                     with_args serialized
                       (args_dataframes host
                          (snd (partition_kwargs host (remaining_keywords kws))))
                       (fst (_get_widget_ui_value host "component_instance"
                               (named self new_element) key
                               (CustomComponent.name self))))])
     /\ ComponentInstance.args_json
          (component_instance
             (with_args serialized
                (args_dataframes host
                   (snd (partition_kwargs host (remaining_keywords kws))))
                (fst (_get_widget_ui_value host "component_instance"
                        (named self new_element) key (CustomComponent.name self)))))
        = serialized).
Proof.
  intros Hnd Hkey (l & Hloc & Hdg) Hjson.
  unfold call. cbn [positional keywords].
  rewrite (keyword_or_None_passes kws "key" key Hnd Hkey).
  rewrite (keyword_or_None_passes kws "loc" l Hnd Hloc).
  unfold create_instance. unfold bind at 1. cbn [ret].
  destruct (partition_kwargs host (remaining_keywords kws)) as [args_json args_df].
  cbn [fst snd] in *.
  unfold bind. rewrite Hjson. cbn [ret]. rewrite Hdg.
  unfold _enqueue_new_element_delta. rewrite marshall_component_run.
  cbv zeta. cbn [snd app_events events element queues].
  split; intros Hk; rewrite Hk.
  - rewrite app_nil_r. repeat split.
    + unfold naming_events, args_events. apply Forall_app. split.
      * destruct (CustomComponent.url self); repeat constructor.
      * constructor; [reflexivity|]. apply Forall_map, Forall_forall. reflexivity.
    + apply lookup_insert_eq.
  - cbn [Datatypes.app]. repeat split.
    + unfold naming_events. destruct (CustomComponent.url self); repeat constructor.
    + unfold args_events. constructor; [reflexivity|].
      apply Forall_map, Forall_forall. reflexivity.
    + apply lookup_insert_eq.
Qed.

Lemma C1_call_witness :
  app_events
    (snd (call (demo_host PyNone) demo_remote
            {| positional := [];
               keywords := [("label", PyStr "hi"); ("key", PyStr "k1");
                            ("df", PyObject "DataFrame" "<df>")] |} new_app))
  = [SetComponentName "remote"; SetUrl "http://localhost:3001";
     GetWidgetUiValue "component_instance"
       {| component_instance :=
            {| ComponentInstance.id := "";
               ComponentInstance.component_name := "remote";
               ComponentInstance.url := "http://localhost:3001";
               ComponentInstance.args_json := "";
               ComponentInstance.args_dataframe := [] |} |}
       (PyStr "k1") "remote";
     SetArgsJson "{'label': hi}";
     AppendArgsDataframe {| ArgsDataframe.key := "df";
                            ArgsDataframe.value_data := "arrow:<df>" |}]
  /\ app_events
       (snd (call (demo_host PyNone) demo_remote
               {| positional := [];
                  keywords := [("label", PyStr "hi");
                               ("df", PyObject "DataFrame" "<df>")] |} new_app))
     = [SetComponentName "remote"; SetUrl "http://localhost:3001";
        SetArgsJson "{'label': hi}";
        AppendArgsDataframe {| ArgsDataframe.key := "df";
                               ArgsDataframe.value_data := "arrow:<df>" |};
        GetWidgetUiValue "component_instance"
          {| component_instance :=
               {| ComponentInstance.id := "";
                  ComponentInstance.component_name := "remote";
                  ComponentInstance.url := "http://localhost:3001";
                  ComponentInstance.args_json := "{'label': hi}";
                  ComponentInstance.args_dataframe :=
                    [{| ArgsDataframe.key := "df";
                        ArgsDataframe.value_data := "arrow:<df>" |}] |} |}
          PyNone "remote"].
Proof.
  split.
  - destruct (proj2 (C1_call_marshalling_order (demo_host PyNone) demo_remote
                [("label", PyStr "hi"); ("key", PyStr "k1");
                 ("df", PyObject "DataFrame" "<df>")]
                new_app (PyStr "k1") 0 "{'label': hi}"
                ltac:(repeat constructor; cbn; intuition discriminate)
                ltac:(left; cbn; auto)
                ltac:(exists PyNone; split;
                      [right; split; [cbn; intuition discriminate|reflexivity]
                      |reflexivity])
                ltac:(vm_compute; reflexivity)) eq_refl) as [Hev _].
    exact Hev.
  - destruct (proj1 (C1_call_marshalling_order (demo_host PyNone) demo_remote
                [("label", PyStr "hi"); ("df", PyObject "DataFrame" "<df>")]
                new_app PyNone 0 "{'label': hi}"
                ltac:(repeat constructor; cbn; intuition discriminate)
                ltac:(right; split; [cbn; intuition discriminate|reflexivity])
                ltac:(exists PyNone; split;
                      [right; split; [cbn; intuition discriminate|reflexivity]
                      |reflexivity])
                ltac:(vm_compute; reflexivity)) eq_refl) as [Hev _].
    exact Hev.
Defined.




(** C9: a call with at least one positional argument raises the
    [MarshallComponentException] "Argument '<first argument>' needs a
    label", whose text holds the formatted first argument, and leaves the
    DeltaGenerators untouched: nothing is enqueued and no collaborator is
    called. *)
Theorem C9_positional_argument_rejected host self a args kws app :
  call host self {| positional := a :: args; keywords := kws |} app
  = (Raise (MarshallComponentException
              ("Argument '" +:+ format host a +:+ "' needs a label") None), app)
  /\ contains (format host a)
              ("Argument '" +:+ format host a +:+ "' needs a label") = true
  /\ (forall loc default key kwargs,
        create_instance host self (a :: args) loc default key kwargs app
        = (Raise (MarshallComponentException
                    ("Argument '" +:+ format host a +:+ "' needs a label") None), app))
  /\ enqueued (snd (call host self {| positional := a :: args; keywords := kws |} app))
     = enqueued app.
Proof.
  assert (Hci : forall loc default key kwargs,
             create_instance host self (a :: args) loc default key kwargs app
             = (Raise (MarshallComponentException
                         ("Argument '" +:+ format host a +:+ "' needs a label") None),
                app)) by reflexivity.
  split; [apply Hci|]. split; [apply contains_app|]. split; [exact Hci|].
  unfold call. cbn [positional]. now rewrite Hci.
Qed.

(** * Keyword arguments *)

Section keyword_facts.

Context (host : Host).

Lemma is_keyword_only_In k : is_keyword_only k = true <-> In k keyword_only.
Proof.
  unfold is_keyword_only. rewrite existsb_exists. split.
  - intros (x & Hx & Heq). apply String.eqb_eq in Heq. now subst.
  - intros Hk. exists k. split; [exact Hk|apply String.eqb_refl].
Qed.

(** Assigning to a key adds at most that key. *)
Lemma dict_set_keys d k v k' :
  In k' (dict_keys (dict_set d k v)) -> k' = k \/ In k' (dict_keys d).
Proof.
  unfold dict_keys. induction d as [|[k0 v0] d IH]; cbn [dict_set map fst In].
  - intros [<-|[]]. now left.
  - destruct (String.eqb k0 k); cbn [map fst In]; intros [H|H]; auto.
    destruct (IH H); auto.
Qed.

Lemma partition_step_keys acc kv k :
  In k (dict_keys (fst (partition_step host acc kv)))
  \/ In k (dict_keys (snd (partition_step host acc kv))) ->
  k = fst kv \/ In k (dict_keys (fst acc)) \/ In k (dict_keys (snd acc)).
Proof.
  destruct acc as [aj adf]. unfold partition_step.
  destruct (is_dataframe_like host (snd kv)); cbn [fst snd]; intros [H|H]; auto;
    apply dict_set_keys in H; destruct H; auto.
Qed.

Lemma partition_fold_keys kwargs acc k :
  In k (dict_keys (fst (fold_left (partition_step host) kwargs acc)))
  \/ In k (dict_keys (snd (fold_left (partition_step host) kwargs acc))) ->
  In k (dict_keys kwargs) \/ In k (dict_keys (fst acc)) \/ In k (dict_keys (snd acc)).
Proof.
  revert acc. induction kwargs as [|kv rest IH]; intros acc H; cbn [fold_left] in H.
  - now right.
  - destruct (IH _ H) as [Hr|Hacc].
    + left. now right.
    + destruct (partition_step_keys acc kv k Hacc) as [->|Hold]; [|now right].
      left. now left.
Qed.

(** Both dictionaries of the partition draw their keys from [kwargs]. *)
Lemma partition_kwargs_keys kwargs k :
  In k (dict_keys (fst (partition_kwargs host kwargs)))
  \/ In k (dict_keys (snd (partition_kwargs host kwargs))) ->
  In k (dict_keys kwargs).
Proof.
  intros H. apply partition_fold_keys in H. cbn in H.
  destruct H as [H|[[]|[]]]. exact H.
Qed.

(** The catch-all receives no keyword that a keyword-only parameter binds. *)
Lemma remaining_keywords_keys kws k :
  In k (dict_keys (remaining_keywords kws)) -> is_keyword_only k = false.
Proof.
  unfold dict_keys, remaining_keywords. rewrite in_map_iff.
  intros ([k0 v0] & <- & Hin). apply list_elem_of_In, list_elem_of_filter in Hin.
  exact (proj1 Hin).
Qed.

(** The trace a call leaves: what was there, then the builder's events for
    the serialised JSON dictionary and the tabular arguments, if the call
    got as far as the builder. *)
Lemma create_instance_events self args loc default key kwargs app :
  exists evs,
    app_events (snd (create_instance host self args loc default key kwargs app))
    = app_events app ++ evs
    /\ (forall df, In (AppendArgsDataframe df) evs ->
                   In df (args_dataframes host (snd (partition_kwargs host kwargs))))
    /\ (forall s, In (SetArgsJson s) evs ->
                  json_dumps host (fst (partition_kwargs host kwargs)) = Ok s).
Proof.
  assert (Hnil : exists evs : list Event,
             app_events app = app_events app ++ evs
             /\ (forall df, In (AppendArgsDataframe df) evs ->
                   In df (args_dataframes host (snd (partition_kwargs host kwargs))))
             /\ (forall s, In (SetArgsJson s) evs ->
                   json_dumps host (fst (partition_kwargs host kwargs)) = Ok s)).
  { exists []. rewrite app_nil_r. repeat split; intros ? []. }
  unfold create_instance.
  destruct args as [|a args]; [|exact Hnil].
  unfold bind at 1. cbn [ret].
  destruct (partition_kwargs host kwargs) as [args_json args_df] eqn:Hpart.
  cbn [fst snd] in *.
  unfold bind. destruct (json_dumps host args_json) as [s|e] eqn:Hjson;
    cbn [ret raise]; [|exact Hnil].
  destruct (if is_None loc then _main host else loc); try exact Hnil.
  unfold _enqueue_new_element_delta. rewrite marshall_component_run.
  cbv zeta. cbn [snd app_events events].
  eexists. split; [reflexivity|]. split.
  - intros df Hin. rewrite !in_app_iff in Hin.
    assert (Hargs : forall df', In (AppendArgsDataframe df')
                      (args_events s (args_dataframes host args_df)) ->
                    In df' (args_dataframes host args_df)).
    { intros df' [Hd|Hd]; [discriminate|].
      apply in_map_iff in Hd as (x & [= ->] & Hx). exact Hx. }
    destruct Hin as [Hin|[Hin|[Hin|Hin]]].
    + unfold naming_events in Hin.
      destruct (CustomComponent.url self); cbn in Hin;
        repeat (destruct Hin as [Hin|Hin]; [discriminate|]); destruct Hin.
    + destruct (is_None key); [auto|destruct Hin].
    + destruct Hin as [Hin|[]]. discriminate.
    + destruct (is_None key); [destruct Hin|auto].
  - intros s' Hin. rewrite !in_app_iff in Hin.
    assert (Hargs : In (SetArgsJson s') (args_events s (args_dataframes host args_df)) ->
                    s' = s).
    { intros [[= ->]|Hd]; [reflexivity|].
      apply in_map_iff in Hd as (x & Hx & _). discriminate. }
    destruct Hin as [Hin|[Hin|[Hin|Hin]]].
    + unfold naming_events in Hin.
      destruct (CustomComponent.url self); cbn in Hin;
        repeat (destruct Hin as [Hin|Hin]; [discriminate|]); destruct Hin.
    + destruct (is_None key); [now rewrite (Hargs Hin)|destruct Hin].
    + destruct Hin as [Hin|[]]. discriminate.
    + destruct (is_None key); [destruct Hin|now rewrite (Hargs Hin)].
Qed.

End keyword_facts.

(** C10: the keywords [loc], [default] and [key] of a call are bound to the
    parameters of those names and do not reach the catch-all dictionary, so
    neither the JSON dictionary nor the dataframe dictionary has one of
    them as a key; every tabular message the call writes is keyed by
    another name, and the JSON blob it writes is the serialisation of a
    dictionary that has none of the three. *)
Theorem C10_reserved_keywords_not_forwarded host self c app k :
  In k keyword_only ->
  ~ In k (dict_keys (remaining_keywords (keywords c)))
  /\ ~ In k (dict_keys (fst (partition_kwargs host (remaining_keywords (keywords c)))))
  /\ ~ In k (dict_keys (snd (partition_kwargs host (remaining_keywords (keywords c)))))
  /\ (forall df,
        In (AppendArgsDataframe df) (app_events (snd (call host self c app))) ->
        In (AppendArgsDataframe df) (app_events app) \/ ArgsDataframe.key df <> k)
  /\ (forall s,
        In (SetArgsJson s) (app_events (snd (call host self c app))) ->
        In (SetArgsJson s) (app_events app)
        \/ json_dumps host (fst (partition_kwargs host (remaining_keywords (keywords c))))
           = Ok s).
Proof.
  intros Hk. apply is_keyword_only_In in Hk.
  assert (Hrest : ~ In k (dict_keys (remaining_keywords (keywords c)))).
  { intros Hin. apply remaining_keywords_keys in Hin. congruence. }
  assert (Hjson : ~ In k (dict_keys (fst (partition_kwargs host
                                            (remaining_keywords (keywords c)))))).
  { intros Hin. apply Hrest, (partition_kwargs_keys host). now left. }
  assert (Hdf : ~ In k (dict_keys (snd (partition_kwargs host
                                          (remaining_keywords (keywords c)))))).
  { intros Hin. apply Hrest, (partition_kwargs_keys host). now right. }
  repeat split; try assumption.
  - intros df Hin. unfold call in Hin.
    destruct (create_instance_events host self (positional c)
                (keyword_or_None "loc" (keywords c))
                (keyword_or_None "default" (keywords c))
                (keyword_or_None "key" (keywords c))
                (remaining_keywords (keywords c)) app) as (evs & Hev & Hdfs & _).
    rewrite Hev, in_app_iff in Hin. destruct Hin as [Hin|Hin]; [now left|].
    right. intros Hkey. apply Hdf.
    specialize (Hdfs df Hin). unfold args_dataframes in Hdfs.
    apply in_map_iff in Hdfs as (kv & <- & Hkv). cbn in Hkey. subst k.
    unfold dict_keys. apply in_map_iff. now exists kv.
  - intros s Hin. unfold call in Hin.
    destruct (create_instance_events host self (positional c)
                (keyword_or_None "loc" (keywords c))
                (keyword_or_None "default" (keywords c))
                (keyword_or_None "key" (keywords c))
                (remaining_keywords (keywords c)) app) as (evs & Hev & _ & Hs).
    rewrite Hev, in_app_iff in Hin. destruct Hin as [Hin|Hin]; [now left|].
    right. now apply Hs.
Qed.

Lemma C10_witness_key_not_forwarded :
  ~ In "key" (dict_keys (fst (partition_kwargs (demo_host PyNone)
        (remaining_keywords [("label", PyStr "hi"); ("key", PyStr "k1");
                             ("df", PyObject "DataFrame" "<df>")]))))
  /\ ~ In "key" (dict_keys (snd (partition_kwargs (demo_host PyNone)
        (remaining_keywords [("label", PyStr "hi"); ("key", PyStr "k1");
                             ("df", PyObject "DataFrame" "<df>")])))).
Proof.
  destruct (C10_reserved_keywords_not_forwarded (demo_host PyNone) demo_local
              {| positional := [];
                 keywords := [("label", PyStr "hi"); ("key", PyStr "k1");
                              ("df", PyObject "DataFrame" "<df>")] |}
              new_app "key") as (_ & Hjson & Hdf & _).
  - cbn. auto.
  - split; [exact Hjson|exact Hdf].
Defined.

(** * Further properties of the asset handler *)

Section request_paths.

Lemma split_head_no_sep sep s : has_char sep (List.hd "" (split sep s)) = false.
Proof.
  induction s as [|c s IH]; [reflexivity|]. cbn [split].
  destruct (Ascii.eqb c sep) eqn:Hc; [reflexivity|].
  pose proof (split_not_nil sep s) as Hnn.
  destruct (split sep s) as [|h t]; [contradiction|].
  cbn [List.hd has_char] in *. now rewrite Hc, IH.
Qed.

Lemma split_no_sep sep s : has_char sep s = false -> split sep s = [s].
Proof.
  induction s as [|c s IH]; [reflexivity|]. cbn [has_char split].
  intros H. apply orb_false_iff in H as [Hc Hs].
  rewrite Hc, (IH Hs). reflexivity.
Qed.

End request_paths.

(** X1: a request path is cut at its first slash and nothing is lost: the
    component name holds no slash; a path without a slash is the name
    itself, with an empty relative path; a path with a slash is the name, a
    slash and the relative path. *)
Theorem request_path_decomposition path :
  has_char slash (first_part (split slash path)) = false
  /\ (has_char slash path = false ->
      first_part (split slash path) = path /\ relative_path path = "")
  /\ (has_char slash path = true ->
      path = first_part (split slash path) +:+ String slash (relative_path path)).
Proof.
  split; [apply split_head_no_sep|]. split.
  - intros Hno. unfold first_part, relative_path.
    now rewrite (split_no_sep slash path Hno).
  - intros Hyes. unfold first_part, relative_path.
    pose proof (join_split slash path) as Hj.
    pose proof (split_head_no_sep slash path) as Hhd.
    destruct (split slash path) as [|a [|b rest]]; cbn [join List.hd List.tl] in *.
    + subst path. discriminate.
    + subst path. congruence.
    + now rewrite <- Hj.
Qed.

Lemma request_path_decomposition_witness :
  first_part (split slash "comp") = "comp" /\ relative_path "comp" = ""
  /\ "comp/sub/file.css"
     = first_part (split slash "comp/sub/file.css")
       +:+ String slash (relative_path "comp/sub/file.css").
Proof.
  destruct (proj1 (proj2 (request_path_decomposition "comp")) eq_refl) as [Hn Hr].
  split; [exact Hn|]. split; [exact Hr|].
  exact (proj2 (proj2 (request_path_decomposition "comp/sub/file.css")) eq_refl).
Defined.

(** X2: starting from a status other than 404, [get] returns normally with
    the status untouched exactly when the component resolves and the file
    is read; then the body grows by exactly the file's contents, the
    [Content-Type] header is the one [get_content_type] gives for the
    joined path, and that path is the one file opened. *)
Theorem served_response os registry path h :
  status h <> 404 ->
  ((fst (get os registry path h) = Ok tt
    /\ status (snd (get os registry path h)) <> 404)
   <-> served os registry path)
  /\ (forall root contents,
        get_component_path os registry (first_part (split slash path)) = Some root ->
        open_read os (os_path_join root (relative_path path)) = Ok contents ->
        status (snd (get os registry path h)) = status h
        /\ body (snd (get os registry path h)) = body h +:+ contents
        /\ headers (snd (get os registry path h)) !! "Content-Type"
           = Some (get_content_type os (os_path_join root (relative_path path)))
        /\ opened (snd (get os registry path h))
           = opened h ++ [os_path_join root (relative_path path)]).
Proof.
  intros Hst. split.
  - unfold served. split.
    + intros [Hok Hne].
      destruct (get_component_path os registry (first_part (split slash path)))
        as [root|] eqn:Hroot.
      * destruct (open_read os (os_path_join root (relative_path path)))
          as [c|e] eqn:Hread; [now exists root, c|].
        destruct (is_OSError e) eqn:Hos.
        -- rewrite (get_read_OSError os registry path h root e Hroot Hread Hos) in Hne.
           now cbn in Hne.
        -- rewrite (get_read_other_exception os registry path h root e Hroot Hread Hos)
             in Hok.
           discriminate.
      * rewrite (get_unresolved os registry path h Hroot) in Hne. now cbn in Hne.
    + intros (root & c & Hroot & Hread).
      rewrite (get_served os registry path h root c Hroot Hread). now cbn.
  - intros root c Hroot Hread.
    rewrite (get_served os registry path h root c Hroot Hread).
    cbn [snd status body headers opened]. repeat split.
    rewrite lookup_insert_ne by discriminate. apply lookup_insert_eq.
Qed.

Lemma served_response_witness :
  body (snd (get demo_os demo_registry "comp/sub/file.css" new_handler)) = "body{}"
  /\ headers (snd (get demo_os demo_registry "comp/sub/file.css" new_handler))
       !! "Content-Type" = Some "text/css".
Proof.
  destruct (proj2 (served_response demo_os demo_registry "comp/sub/file.css"
                     new_handler ltac:(discriminate))
                  "/srv/comp" "body{}"
                  ltac:(vm_compute; reflexivity) ltac:(vm_compute; reflexivity))
    as (_ & Hbody & Hct & _).
  split; [exact Hbody|exact Hct].
Defined.

(** X3: [get] touches no header but [Content-Type] and [Cache-Control], on
    any path through it, and touches none at all unless it serves a file;
    so a header put there before, such as the cross-origin header of
    [set_default_headers], is still there afterwards. *)
Theorem get_preserves_other_headers os registry path h :
  (forall k, k <> "Content-Type" -> k <> "Cache-Control" ->
             headers (snd (get os registry path h)) !! k = headers h !! k)
  /\ (~ served os registry path -> headers (snd (get os registry path h)) = headers h)
  /\ (allow_cross_origin_requests os = true ->
      headers (snd (get os registry path (snd (set_default_headers os h))))
        !! "Access-Control-Allow-Origin" = Some "*").
Proof.
  assert (Hcases :
    (exists root c,
        get_component_path os registry (first_part (split slash path)) = Some root
        /\ open_read os (os_path_join root (relative_path path)) = Ok c)
    \/ forall h0, headers (snd (get os registry path h0)) = headers h0).
  { destruct (get_component_path os registry (first_part (split slash path)))
      as [root|] eqn:Hroot.
    - destruct (open_read os (os_path_join root (relative_path path)))
        as [c|e] eqn:Hread; [left; now exists root, c|].
      right. intros h0. destruct (is_OSError e) eqn:Hos.
      + now rewrite (get_read_OSError os registry path h0 root e Hroot Hread Hos).
      + now rewrite (get_read_other_exception os registry path h0 root e Hroot Hread Hos).
    - right. intros h0. now rewrite (get_unresolved os registry path h0 Hroot). }
  assert (Hother : forall h0 k, k <> "Content-Type" -> k <> "Cache-Control" ->
             headers (snd (get os registry path h0)) !! k = headers h0 !! k).
  { intros h0 k Hct Hcc. destruct Hcases as [(root & c & Hroot & Hread)|Hsame].
    - rewrite (get_served os registry path h0 root c Hroot Hread).
      cbn [snd headers]. now rewrite !lookup_insert_ne by congruence.
    - now rewrite Hsame. }
  split; [apply Hother|]. split.
  - intros Hnot. destruct Hcases as [Hserved|Hsame]; [|apply Hsame].
    exfalso. apply Hnot. exact Hserved.
  - intros Hallow. rewrite Hother by discriminate.
    unfold set_default_headers. rewrite Hallow. cbn. apply lookup_insert_eq.
Qed.

Lemma get_preserves_other_headers_witness :
  headers (snd (get demo_os demo_registry "comp/index.html"
                  (snd (set_default_headers demo_os new_handler))))
    !! "Access-Control-Allow-Origin" = Some "*"
  /\ headers (snd (get demo_os demo_registry "nope/index.html" new_handler)) = ∅.
Proof.
  split.
  - exact (proj2 (proj2 (get_preserves_other_headers demo_os demo_registry
                           "comp/index.html" new_handler)) eq_refl).
  - apply (proj1 (proj2 (get_preserves_other_headers demo_os demo_registry
                           "nope/index.html" new_handler))).
    intros (root & c & Hroot & _). vm_compute in Hroot. discriminate.
Defined.



(** * Further properties of declarations and the registry *)

(** X6: [__eq__] holds exactly between declarations with the same name,
    path and url (a missing path or url equal only to a missing one), and
    [__ne__] exactly between the others; so [__eq__] is reflexive,
    symmetric and transitive. *)
Theorem declaration_equality a b :
  (CustomComponent.eqb a b = true <->
     CustomComponent.name a = CustomComponent.name b
     /\ CustomComponent.path a = CustomComponent.path b
     /\ CustomComponent.url a = CustomComponent.url b)
  /\ (CustomComponent.neb a b = true <-> a <> b)
  /\ CustomComponent.eqb a a = true
  /\ CustomComponent.eqb a b = CustomComponent.eqb b a
  /\ (forall c, CustomComponent.eqb a b = true -> CustomComponent.eqb b c = true ->
                CustomComponent.eqb a c = true).
Proof.
  split; [|split; [apply component_neb_true|split; [now apply component_eqb_eq|split]]].
  - rewrite component_eqb_eq. destruct a, b; cbn. split.
    + intros [= -> -> ->]. auto.
    + intros (-> & -> & ->). reflexivity.
  - destruct (CustomComponent.eqb a b) eqn:Hab, (CustomComponent.eqb b a) eqn:Hba;
      try reflexivity.
    + apply component_eqb_eq in Hab. subst b.
      rewrite (proj2 (component_eqb_eq a a) eq_refl) in Hba. discriminate.
    + apply component_eqb_eq in Hba. subst b.
      rewrite (proj2 (component_eqb_eq a a) eq_refl) in Hab. discriminate.
  - intros c Hab Hbc. apply component_eqb_eq in Hab, Hbc. subst.
    now apply component_eqb_eq.
Qed.

Lemma declaration_equality_witness :
  CustomComponent.eqb demo_local
    {| CustomComponent.name := "comp"; CustomComponent.path := Some "/srv/comp";
       CustomComponent.url := None |} = true.
Proof.
  apply (proj2 (proj1 (declaration_equality demo_local
           {| CustomComponent.name := "comp"; CustomComponent.path := Some "/srv/comp";
              CustomComponent.url := None |}))).
  repeat split.
Defined.

(** X7: a registration, accepted or refused, changes what no other name is
    bound to, so every other name resolves to the path it resolved to. *)
Theorem registration_leaves_other_names os component reg n :
  n <> CustomComponent.name component ->
  _components (snd (register_component os component reg)) !! n = _components reg !! n
  /\ forall os',
       get_component_path os' (snd (register_component os component reg)) n
       = get_component_path os' reg n.
Proof.
  intros Hn.
  assert (Hsame : _components (snd (register_component os component reg)) !! n
                  = _components reg !! n).
  { destruct (valid_location os component) eqn:Hv.
    - rewrite (register_component_accepted os component reg Hv).
      cbn [snd _components]. now apply lookup_insert_ne.
    - destruct (register_component_refused os component reg Hv) as (p & _ & ->).
      reflexivity. }
  split; [exact Hsame|].
  intros os'. unfold get_component_path. now rewrite Hsame.
Qed.

Lemma registration_leaves_other_names_witness :
  get_component_path demo_os
    (snd (register_component demo_os
            {| CustomComponent.name := "remote"; CustomComponent.path := Some "/srv/comp";
               CustomComponent.url := None |} demo_registry)) "comp"
  = Some "/srv/comp".
Proof.
  rewrite (proj2 (registration_leaves_other_names demo_os
                    {| CustomComponent.name := "remote";
                       CustomComponent.path := Some "/srv/comp";
                       CustomComponent.url := None |} demo_registry "comp"
                    ltac:(discriminate)) demo_os).
  vm_compute. reflexivity.
Defined.

(** X8: the registry holds one declaration per name.  An accepted
    registration under a name that was free adds one entry and logs no
    warning; under a name that was taken it leaves the number of entries as
    it was; a refused one leaves the registry and its log untouched. *)
Theorem registration_counts os component reg :
  (valid_location os component = true ->
   _components reg !! CustomComponent.name component = None ->
   size (_components (snd (register_component os component reg)))
   = S (size (_components reg))
   /\ warnings (registry_log (snd (register_component os component reg)))
      = warnings (registry_log reg))
  /\ (valid_location os component = true ->
      _components reg !! CustomComponent.name component <> None ->
      size (_components (snd (register_component os component reg)))
      = size (_components reg))
  /\ (valid_location os component = false ->
      snd (register_component os component reg) = reg).
Proof.
  split; [|split].
  - intros Hv Hfree. rewrite (register_component_accepted os component reg Hv).
    cbn [snd _components registry_log]. split.
    + now apply map_size_insert_None.
    + rewrite Hfree. unfold registration_records. rewrite warnings_app.
      cbn. now rewrite app_nil_r.
  - intros Hv Htaken. rewrite (register_component_accepted os component reg Hv).
    cbn [snd _components]. apply map_size_insert_Some.
    destruct (_components reg !! CustomComponent.name component); [eauto|congruence].
  - intros Hv. destruct (register_component_refused os component reg Hv) as (p & _ & ->).
    reflexivity.
Qed.

Lemma registration_counts_witness :
  size (_components (snd (register_component demo_os
          {| CustomComponent.name := "other"; CustomComponent.path := Some "/srv/comp";
             CustomComponent.url := None |} demo_registry))) = 3
  /\ size (_components (snd (register_component demo_os
          {| CustomComponent.name := "remote"; CustomComponent.path := Some "/srv/comp";
             CustomComponent.url := None |} demo_registry))) = 2
  /\ snd (register_component demo_os
          {| CustomComponent.name := "other"; CustomComponent.path := Some "/nowhere";
             CustomComponent.url := None |} demo_registry) = demo_registry.
Proof.
  split; [|split].
  - rewrite (proj1 (proj1 (registration_counts demo_os
               {| CustomComponent.name := "other"; CustomComponent.path := Some "/srv/comp";
                  CustomComponent.url := None |} demo_registry)
               ltac:(vm_compute; reflexivity) ltac:(vm_compute; reflexivity))).
    vm_compute. reflexivity.
  - rewrite (proj1 (proj2 (registration_counts demo_os
               {| CustomComponent.name := "remote"; CustomComponent.path := Some "/srv/comp";
                  CustomComponent.url := None |} demo_registry))
               ltac:(vm_compute; reflexivity) ltac:(vm_compute; discriminate)).
    vm_compute. reflexivity.
  - exact (proj2 (proj2 (registration_counts demo_os
               {| CustomComponent.name := "other"; CustomComponent.path := Some "/nowhere";
                  CustomComponent.url := None |} demo_registry))
               ltac:(vm_compute; reflexivity)).
Defined.

(** X9: a declaration with a url and no path is registered without any
    look at the file system, whatever the registry held; from then on its
    name resolves to no local path, also when it was bound to a local
    directory before. *)
Theorem url_declaration_is_never_local os caller u reg :
  exists reg',
    declare_component os caller None (Some u) reg
    = (Ok {| CustomComponent.name := component_name_of caller;
             CustomComponent.path := None;
             CustomComponent.url := Some u |}, reg')
    /\ forall os', get_component_path os' reg' (component_name_of caller) = None.
Proof.
  unfold declare_component. cbn [CustomComponent.init lift].
  set (c := {| CustomComponent.name := component_name_of caller;
               CustomComponent.path := None; CustomComponent.url := Some u |}).
  assert (Hv : valid_location os c = true) by reflexivity.
  unfold bind at 1. cbn. unfold bind.
  rewrite (register_component_accepted os c reg Hv). cbn.
  eexists. split; [reflexivity|].
  intros os'. unfold get_component_path. cbn. now rewrite lookup_insert_eq.
Qed.

(** X10: [declare_component] keeps the registry's invariant: whether it
    succeeds or fails, every declaration is still stored under its own
    name and still has exactly one of path and url. *)
Theorem declare_component_keeps_invariant os caller path url reg :
  registry_invariant reg ->
  registry_invariant (snd (declare_component os caller path url reg)).
Proof.
  intros Hinv.
  destruct (CustomComponent.init (component_name_of caller) path url) as [c|e] eqn:Hinit.
  - assert (Hc : CustomComponent.name c = component_name_of caller
                 /\ (CustomComponent.path c = None <-> CustomComponent.url c <> None)).
    { unfold CustomComponent.init in Hinit.
      destruct path, url; try discriminate; injection Hinit as <-; cbn;
        (split; [reflexivity|split; congruence]). }
    unfold declare_component. rewrite Hinit. unfold bind at 1. cbn [lift].
    destruct (valid_location os c) eqn:Hv.
    + unfold bind. rewrite (register_component_accepted os c reg Hv). cbn.
      intros n c' Hlook. cbn in Hlook.
      destruct (decide (CustomComponent.name c = n)) as [<-|Hne].
      * rewrite lookup_insert_eq in Hlook. injection Hlook as <-.
        split; [reflexivity|apply Hc].
      * rewrite lookup_insert_ne in Hlook by exact Hne. now apply Hinv.
    + destruct (register_component_refused os c reg Hv) as (p & _ & Hrun).
      unfold bind. rewrite Hrun. exact Hinv.
  - unfold declare_component. rewrite Hinit. exact Hinv.
Qed.

Lemma declare_component_keeps_invariant_witness :
  registry_invariant
    (snd (declare_component demo_os
            {| module_name := "my_pkg.widget"; file_path := "/home/u/my_pkg/widget.py" |}
            (Some "/srv/comp") None ComponentRegistry_init)).
Proof.
  apply declare_component_keeps_invariant.
  intros n c Hlook. cbn in Hlook. rewrite lookup_empty in Hlook. discriminate.
Defined.

Section absolute_paths.

Lemma startswith_slash_inv s :
  startswith "/" s = true -> exists rest, s = String slash rest.
Proof.
  destruct s as [|c rest]; cbn [startswith]; [discriminate|].
  rewrite andb_true_r. intros Hc. apply Ascii.eqb_eq in Hc.
  subst c. now exists rest.
Qed.

Lemma normpath_keeps_root s :
  startswith "/" s = true -> startswith "/" (normpath s) = true.
Proof.
  intros Hs. destruct (startswith_slash_inv s Hs) as [rest ->].
  unfold normpath. change (String.eqb (String slash rest) "") with false.
  cbv iota. rewrite Hs.
  destruct (startswith "//" (String slash rest)
            && negb (startswith "///" (String slash rest))); reflexivity.
Qed.

Lemma os_path_join_keeps_root cwd path :
  startswith "/" cwd = true -> startswith "/" (os_path_join cwd path) = true.
Proof.
  intros Hcwd. unfold os_path_join.
  destruct (startswith "/" path) eqn:Hp; [exact Hp|].
  destruct (startswith_slash_inv cwd Hcwd) as [rest ->].
  destruct (String.eqb (String slash rest) "" || endswith "/" (String slash rest));
    reflexivity.
Qed.

End absolute_paths.

(** X11: when the working directory is absolute, every path the registry
    resolves a name to is absolute; and for a declaration whose path is
    absolute the resolved path does not depend on the working directory at
    the time of the lookup. *)
Theorem resolved_path_is_absolute os reg n :
  (startswith "/" (getcwd os) = true ->
   forall p, get_component_path os reg n = Some p -> startswith "/" p = true)
  /\ (forall c q os',
        _components reg !! n = Some c ->
        CustomComponent.path c = Some q ->
        startswith "/" q = true ->
        get_component_path os' reg n = get_component_path os reg n).
Proof.
  unfold get_component_path, CustomComponent.abspath, os_path_abspath. split.
  - intros Hcwd p Hp.
    destruct (_components reg !! n) as [c|]; [|discriminate].
    destruct (CustomComponent.path c) as [q|]; [|discriminate].
    injection Hp as <-. apply normpath_keeps_root.
    match goal with
    | |- startswith _ (if ?b then _ else _) = true => destruct b eqn:Hq
    end; [exact Hq|].
    now apply os_path_join_keeps_root.
  - intros c q os' -> -> Hq. now rewrite Hq.
Qed.

Lemma resolved_path_is_absolute_witness :
  startswith "/" "/home/app/frontend/build" = true
  /\ get_component_path demo_os
       {| _components :=
            <["rel" := {| CustomComponent.name := "rel";
                          CustomComponent.path := Some "frontend/./build/";
                          CustomComponent.url := None |}]> ∅;
          registry_log := [] |} "rel" = Some "/home/app/frontend/build".
Proof.
  assert (Hget : get_component_path demo_os
       {| _components :=
            <["rel" := {| CustomComponent.name := "rel";
                          CustomComponent.path := Some "frontend/./build/";
                          CustomComponent.url := None |}]> ∅;
          registry_log := [] |} "rel" = Some "/home/app/frontend/build")
    by (vm_compute; reflexivity).
  split; [|exact Hget].
  exact (proj1 (resolved_path_is_absolute demo_os _ "rel") eq_refl _ Hget).
Defined.

Section script_names.

Lemma has_char_app c (a b : string) :
  has_char c (a +:+ b) = has_char c a || has_char c b.
Proof.
  induction a as [|x a IH]; [reflexivity|].
  rewrite app_cons. cbn [has_char]. now rewrite IH, orb_assoc.
Qed.

Lemma rfind_succ_absent c s : has_char c s = false -> rfind_succ c s = 0.
Proof.
  induction s as [|x s IH]; [reflexivity|]. cbn [has_char rfind_succ].
  intros H. apply orb_false_iff in H as [Hx Hs]. now rewrite (IH Hs), Hx.
Qed.

Lemma rfind_succ_last c a b :
  has_char c b = false -> rfind_succ c (a +:+ String c b) = S (String.length a).
Proof.
  intros Hb. induction a as [|x a IH].
  - rewrite app_nil_l. cbn [rfind_succ String.length].
    now rewrite (rfind_succ_absent c b Hb), Ascii.eqb_refl.
  - rewrite app_cons. cbn [rfind_succ String.length]. now rewrite IH.
Qed.

Lemma substring_all s : String.substring 0 (String.length s) s = s.
Proof. induction s as [|x s IH]; [reflexivity|]. cbn. now rewrite IH. Qed.

Lemma str_drop_after_sep c a b : str_drop (S (String.length a)) (a +:+ String c b) = b.
Proof.
  unfold str_drop. induction a as [|x a IH].
  - rewrite app_nil_l. cbn [String.length String.substring Nat.sub].
    rewrite Nat.sub_0_r. apply substring_all.
  - rewrite app_cons. cbn [String.length String.substring Nat.sub]. exact IH.
Qed.

Lemma str_take_prefix a b : str_take (String.length a) (a +:+ b) = a.
Proof.
  unfold str_take. induction a as [|x a IH].
  - rewrite app_nil_l. destruct b; reflexivity.
  - rewrite app_cons. cbn [String.length String.substring]. now rewrite IH.
Qed.

Lemma has_non_dot_stem stem :
  has_char "."%char stem = false -> stem <> "" -> has_non_dot stem = true.
Proof.
  destruct stem as [|x s]; [congruence|]. cbn [has_char has_non_dot].
  intros H _. apply orb_false_iff in H as [-> _]. reflexivity.
Qed.

Lemma basename_after_sep dir name :
  has_char slash name = false -> basename (dir +:+ String slash name) = name.
Proof.
  intros Hn. unfold basename. rewrite (rfind_succ_last slash dir name Hn).
  apply str_drop_after_sep.
Qed.

Lemma splitext_stem_ext stem ext :
  has_char slash stem = false -> has_char "."%char stem = false -> stem <> "" ->
  has_char slash ext = false -> has_char "."%char ext = false ->
  splitext (stem +:+ String "."%char ext) = (stem, String "."%char ext).
Proof.
  intros Hss Hds Hne Hse Hde. unfold splitext.
  assert (Hnoslash : has_char slash (stem +:+ String "."%char ext) = false).
  { rewrite has_char_app, Hss. cbn [has_char]. now rewrite Hse. }
  rewrite (rfind_succ_absent slash _ Hnoslash).
  rewrite (rfind_succ_last "."%char stem ext Hde).
  cbn [Nat.ltb Nat.leb Nat.sub]. rewrite !Nat.sub_0_r.
  change (String.substring 0 (String.length stem) (stem +:+ String "."%char ext))
    with (str_take (String.length stem) (stem +:+ String "."%char ext)).
  rewrite str_take_prefix, (has_non_dot_stem stem Hds Hne).
  f_equal. unfold str_drop.
  pose proof (str_drop_after_sep "."%char stem ext) as Hd. unfold str_drop in Hd.
  clear - Hd. induction stem as [|x s IH].
  - rewrite app_nil_l in *. cbn [String.length String.substring Nat.sub] in *.
    rewrite Nat.sub_0_r in *. cbn [String.substring]. now rewrite substring_all.
  - rewrite app_cons in *. cbn [String.length String.substring Nat.sub] in *.
    apply IH. exact Hd.
Qed.

Lemma splitext_no_ext stem :
  has_char "."%char stem = false -> splitext stem = (stem, "").
Proof.
  intros Hd. unfold splitext. rewrite (rfind_succ_absent "."%char stem Hd).
  destruct (rfind_succ slash stem); reflexivity.
Qed.

End script_names.

(** X12: the name [declare_component] gives a component.  Called from a
    module other than [__main__], it is the module's name.  Called from the
    script being run, it is the script's file name without its directory
    and without its extension: [dir/stem.ext] and [dir/stem] both give
    [stem] (for a stem and an extension that hold no slash and no dot). *)
Theorem component_name_of_caller dir stem ext :
  has_char slash stem = false -> has_char "."%char stem = false -> stem <> "" ->
  has_char slash ext = false -> has_char "."%char ext = false ->
  component_name_of {| module_name := "__main__";
                       file_path := dir +:+ String slash (stem +:+ String "."%char ext) |}
  = stem
  /\ component_name_of {| module_name := "__main__";
                          file_path := dir +:+ String slash stem |} = stem
  /\ (forall m f, m <> "__main__" ->
                  component_name_of {| module_name := m; file_path := f |} = m).
Proof.
  intros Hss Hds Hne Hse Hde. unfold component_name_of. cbn [module_name file_path].
  split; [|split].
  - change (String.eqb "__main__" "__main__") with true. cbv iota.
    rewrite basename_after_sep.
    + now rewrite splitext_stem_ext.
    + rewrite has_char_app, Hss. cbn [has_char]. now rewrite Hse.
  - change (String.eqb "__main__" "__main__") with true. cbv iota.
    rewrite (basename_after_sep dir stem Hss). now rewrite splitext_no_ext.
  - intros m f Hm. apply String.eqb_neq in Hm. now rewrite Hm.
Qed.

Lemma component_name_of_caller_witness :
  component_name_of {| module_name := "__main__";
                       file_path := "/home/u/my_component.py" |} = "my_component".
Proof.
  exact (proj1 (component_name_of_caller "/home/u" "my_component" "py"
                  eq_refl eq_refl ltac:(discriminate) eq_refl eq_refl)).
Defined.

(** * Further properties of the instance protocol *)

(** X13: when [json.dumps] raises on the JSON arguments, a call without
    positional arguments raises the [MarshallComponentException] "Could
    not convert component args to JSON" carrying the text of the original
    exception, and nothing else has happened: no element is enqueued and
    the value store is not asked. *)
Theorem json_failure_is_a_marshalling_error host self loc default key kwargs app e :
  json_dumps host (fst (partition_kwargs host kwargs)) = Raise e ->
  create_instance host self [] loc default key kwargs app
  = (Raise (MarshallComponentException
              "Could not convert component args to JSON" (Some (exn_str e))), app).
Proof.
  intros Hjson. unfold create_instance. unfold bind at 1. cbn [ret].
  destruct (partition_kwargs host kwargs) as [args_json args_df].
  cbn [fst] in Hjson. unfold bind. now rewrite Hjson.
Qed.

Lemma json_failure_is_a_marshalling_error_witness :
  create_instance demo_host_json_fails demo_local [] PyNone PyNone PyNone
    [("items", PyObject "set" "{1, 2}")] new_app
  = (Raise (MarshallComponentException "Could not convert component args to JSON"
              (Some "Object of type set is not JSON serializable")), new_app).
Proof.
  exact (json_failure_is_a_marshalling_error demo_host_json_fails demo_local
           PyNone PyNone PyNone [("items", PyObject "set" "{1, 2}")] new_app
           (TypeError "Object of type set is not JSON serializable") eq_refl).
Defined.

Section partition_facts.

Context (host : Host).

(** Assigning to a key the dictionary does not hold appends the item. *)
Lemma dict_set_fresh d k v : ~ In k (dict_keys d) -> dict_set d k v = d ++ [(k, v)].
Proof.
  unfold dict_keys. induction d as [|[k0 v0] d IH]; cbn [dict_set map fst In app];
    [reflexivity|].
  intros Hnot. destruct (String.eqb_spec k0 k) as [->|Hne].
  - exfalso. apply Hnot. now left.
  - rewrite IH; [reflexivity|]. intros Hin. apply Hnot. now right.
Qed.

Lemma dict_keys_app (d d' : Dict) : dict_keys (d ++ d') = dict_keys d ++ dict_keys d'.
Proof. unfold dict_keys. apply map_app. Qed.

Lemma partition_fold_fresh kwargs args_json args_df :
  List.NoDup (dict_keys kwargs) ->
  (forall k, In k (dict_keys kwargs) ->
             ~ In k (dict_keys args_json) /\ ~ In k (dict_keys args_df)) ->
  fold_left (partition_step host) kwargs (args_json, args_df)
  = (args_json ++ List.filter (fun kv => negb (is_dataframe_like host (snd kv))) kwargs,
     args_df ++ List.filter (fun kv => is_dataframe_like host (snd kv)) kwargs).
Proof.
  revert args_json args_df.
  induction kwargs as [|[k v] rest IH]; intros args_json args_df Hnd Hfresh.
  - cbn. now rewrite !app_nil_r.
  - cbn [dict_keys map fst] in Hnd. inversion Hnd as [|? ? Hk Hrest]; subst.
    destruct (Hfresh k ltac:(now left)) as [Hj Hd].
    cbn [fold_left partition_step List.filter snd fst].
    destruct (is_dataframe_like host v) eqn:Hdf; cbn [negb].
    + rewrite (dict_set_fresh args_df k v Hd). rewrite IH; [|exact Hrest|].
      * now rewrite <- app_assoc.
      * intros k' Hk'. destruct (Hfresh k' ltac:(now right)) as [Hj' Hd'].
        split; [exact Hj'|]. rewrite dict_keys_app, in_app_iff.
        intros [H|[<-|[]]]; [now apply Hd'|]. now apply Hk.
    + rewrite (dict_set_fresh args_json k v Hj). rewrite IH; [|exact Hrest|].
      * now rewrite <- app_assoc.
      * intros k' Hk'. destruct (Hfresh k' ltac:(now right)) as [Hj' Hd'].
        split; [|exact Hd']. rewrite dict_keys_app, in_app_iff.
        intros [H|[<-|[]]]; [now apply Hj'|]. now apply Hk.
Qed.

Lemma remaining_keywords_NoDup kws :
  List.NoDup (dict_keys kws) -> List.NoDup (dict_keys (remaining_keywords kws)).
Proof.
  unfold remaining_keywords, dict_keys, Dict.
  induction kws as [|[k v] rest IH]; intros Hnd; [constructor|].
  inversion Hnd as [|? ? Hk Hrest]; subst.
  rewrite filter_cons. cbn [fst]. destruct (decide (is_keyword_only k = false)).
  - cbn [map fst]. constructor; [|now apply IH].
    intros Hin. apply Hk. apply in_map_iff in Hin as (kv & Hkv & Hin).
    apply in_map_iff. exists kv. split; [exact Hkv|].
    apply list_elem_of_In. apply list_elem_of_In, list_elem_of_filter in Hin.
    exact (proj2 Hin).
  - now apply IH.
Qed.

End partition_facts.

(** X14: the keyword arguments of a call (their names are distinct) are
    split, not lost or repeated: of the arguments left after [loc],
    [default] and [key] are taken out, the JSON dictionary is those that
    are not dataframe-like and the dataframe dictionary those that are,
    each in the order of the call and with the value given; the name of
    every such argument is a key of exactly one of the two. *)
Theorem partition_splits_the_arguments host kws :
  List.NoDup (dict_keys kws) ->
  partition_kwargs host (remaining_keywords kws)
  = (List.filter (fun kv => negb (is_dataframe_like host (snd kv)))
                 (remaining_keywords kws),
     List.filter (fun kv => is_dataframe_like host (snd kv))
                 (remaining_keywords kws))
  /\ (forall k v, In (k, v) kws -> is_keyword_only k = false ->
        if is_dataframe_like host v
        then In (k, v) (snd (partition_kwargs host (remaining_keywords kws)))
             /\ ~ In k (dict_keys (fst (partition_kwargs host (remaining_keywords kws))))
        else In (k, v) (fst (partition_kwargs host (remaining_keywords kws)))
             /\ ~ In k (dict_keys (snd (partition_kwargs host (remaining_keywords kws))))).
Proof.
  intros Hkws. pose proof (remaining_keywords_NoDup kws Hkws) as Hnd.
  assert (Hkeep : forall k v, In (k, v) kws -> is_keyword_only k = false ->
                              In (k, v) (remaining_keywords kws)).
  { intros k v Hin Hk. unfold remaining_keywords.
    apply list_elem_of_In, list_elem_of_filter. split; [exact Hk|].
    now apply list_elem_of_In. }
  revert Hnd Hkeep. generalize (remaining_keywords kws). intros kwargs Hnd Hkeep.
  assert (Heq : partition_kwargs host kwargs
                = (List.filter (fun kv => negb (is_dataframe_like host (snd kv))) kwargs,
                   List.filter (fun kv => is_dataframe_like host (snd kv)) kwargs)).
  { unfold partition_kwargs.
    apply (partition_fold_fresh host kwargs [] [] Hnd).
    intros k _. split; intros []. }
  split; [exact Heq|].
  assert (Honce : forall k v v', In (k, v) kwargs -> In (k, v') kwargs -> v = v').
  { clear Heq Hkeep. induction kwargs as [|[k0 v0] rest IH]; intros k v v' [].
    - injection H as -> ->. intros [[= ->]|Hin]; [reflexivity|].
      exfalso. inversion Hnd as [|? ? Hk _]; subst. apply Hk.
      apply in_map_iff. now exists (k, v').
    - intros [[= -> ->]|Hin].
      + exfalso. inversion Hnd as [|? ? Hk _]; subst. apply Hk.
        apply in_map_iff. now exists (k, v).
      + inversion Hnd; subst. eapply IH; eauto. }
  intros k v Hin0 Hres. pose proof (Hkeep k v Hin0 Hres) as Hin.
  rewrite Heq. cbn [fst snd].
  destruct (is_dataframe_like host v) eqn:Hdf; split.
  - apply filter_In. now split.
  - intros Hk. apply in_map_iff in Hk as ([k' v'] & Hfst & Hin').
    cbn in Hfst. subst k'. apply filter_In in Hin' as [Hin' Hneg].
    cbn in Hneg. rewrite <- (Honce k v v' Hin Hin') in Hneg.
    rewrite Hdf in Hneg. discriminate.
  - apply filter_In. split; [exact Hin|]. cbn. now rewrite Hdf.
  - intros Hk. apply in_map_iff in Hk as ([k' v'] & Hfst & Hin').
    cbn in Hfst. subst k'. apply filter_In in Hin' as [Hin' Hpos].
    cbn in Hpos. rewrite <- (Honce k v v' Hin Hin') in Hpos. congruence.
Qed.

Lemma partition_splits_the_arguments_witness :
  partition_kwargs (demo_host PyNone)
    (remaining_keywords
       [("label", PyStr "hi"); ("key", PyStr "k1");
        ("df", PyObject "DataFrame" "<df>"); ("n", PyInt 3)])
  = ([("label", PyStr "hi"); ("n", PyInt 3)], [("df", PyObject "DataFrame" "<df>")]).
Proof.
  rewrite (proj1 (partition_splits_the_arguments (demo_host PyNone)
             [("label", PyStr "hi"); ("key", PyStr "k1");
              ("df", PyObject "DataFrame" "<df>"); ("n", PyInt 3)]
             ltac:(repeat constructor; cbn; intuition discriminate))).
  reflexivity.
Defined.

(** X15: with a user key, what the value store is asked and what the call
    gives back do not depend on the arguments: for any two sets of
    arguments the builder hands [_get_widget_ui_value] the same element,
    returns the same value, and leaves the same id on the element. *)
Theorem keyed_call_ignores_arguments host self default key s1 args_df1 s2 args_df2 b :
  is_None key = false ->
  fst (marshall_component host self default key s1 args_df1 b)
  = fst (marshall_component host self default key s2 args_df2 b)
  /\ List.filter is_value_request
       (events (snd (marshall_component host self default key s1 args_df1 b)))
     = List.filter is_value_request
         (events (snd (marshall_component host self default key s2 args_df2 b)))
  /\ ComponentInstance.id (component_instance
       (element (snd (marshall_component host self default key s1 args_df1 b))))
     = ComponentInstance.id (component_instance
         (element (snd (marshall_component host self default key s2 args_df2 b)))).
Proof.
  intros Hk. rewrite !marshall_component_run. cbv zeta. rewrite !Hk.
  cbn [fst snd events element]. split; [reflexivity|]. split; [|reflexivity].
  assert (Hargs : forall s dfs, List.filter is_value_request (args_events s dfs) = []).
  { intros s dfs. unfold args_events. cbn [List.filter is_value_request].
    induction dfs as [|df dfs IH]; [reflexivity|exact IH]. }
  rewrite !List.filter_app, !Hargs. reflexivity.
Qed.

Lemma keyed_call_ignores_arguments_witness :
  fst (marshall_component (demo_host (PyStr "clicked")) demo_remote PyNone (PyStr "k1")
         "{'label': hi}" [] {| element := new_element; events := [] |})
  = fst (marshall_component (demo_host (PyStr "clicked")) demo_remote PyNone (PyStr "k1")
           "{'label': bye}" [("df", PyObject "DataFrame" "<df>")]
           {| element := new_element; events := [] |}).
Proof.
  exact (proj1 (keyed_call_ignores_arguments (demo_host (PyStr "clicked")) demo_remote
                  PyNone (PyStr "k1") "{'label': hi}" []
                  "{'label': bye}" [("df", PyObject "DataFrame" "<df>")]
                  {| element := new_element; events := [] |} eq_refl)).
Defined.

(** X16: without a user key the arguments are part of what the value store
    is asked with: the builder's last step is the call of
    [_get_widget_ui_value], and two calls whose serialised JSON or whose
    tabular messages differ hand it different elements. *)
Theorem keyless_call_depends_on_arguments host self default key s1 args_df1 s2 args_df2 b :
  is_None key = true ->
  s1 <> s2 \/ args_dataframes host args_df1 <> args_dataframes host args_df2 ->
  exists pre1 pre2 seen1 seen2,
    events (snd (marshall_component host self default key s1 args_df1 b))
    = pre1 ++ [GetWidgetUiValue "component_instance" seen1 key (CustomComponent.name self)]
    /\ events (snd (marshall_component host self default key s2 args_df2 b))
       = pre2 ++ [GetWidgetUiValue "component_instance" seen2 key (CustomComponent.name self)]
    /\ seen1 <> seen2.
Proof.
  intros Hk Hdiff. rewrite !marshall_component_run. cbv zeta. rewrite !Hk.
  cbn [snd events]. rewrite !app_nil_r.
  eexists (events b ++ naming_events self ++ args_events s1 _),
          (events b ++ naming_events self ++ args_events s2 _), _, _.
  split; [now rewrite <- !app_assoc|]. split; [now rewrite <- !app_assoc|].
  unfold with_args. intros Heq. injection Heq as Hs Hdfs.
  destruct Hdiff as [Hne|Hne]; [now apply Hne|].
  apply Hne. now apply app_inv_head in Hdfs.
Qed.

Lemma keyless_call_depends_on_arguments_witness :
  exists pre1 pre2 seen1 seen2,
    events (snd (marshall_component (demo_host PyNone) demo_remote PyNone PyNone
                   "{'label': hi}" [] {| element := new_element; events := [] |}))
    = pre1 ++ [GetWidgetUiValue "component_instance" seen1 PyNone "remote"]
    /\ events (snd (marshall_component (demo_host PyNone) demo_remote PyNone PyNone
                      "{'label': bye}" [] {| element := new_element; events := [] |}))
       = pre2 ++ [GetWidgetUiValue "component_instance" seen2 PyNone "remote"]
    /\ seen1 <> seen2.
Proof.
  exact (keyless_call_depends_on_arguments (demo_host PyNone) demo_remote PyNone PyNone
           "{'label': hi}" [] "{'label': bye}" []
           {| element := new_element; events := [] |} eq_refl
           ltac:(left; discriminate)).
Defined.

(** * From declaration to request *)

Section declared_requests.

Lemma split_app_sep sep a f :
  has_char sep a = false -> split sep (a +:+ String sep f) = a :: split sep f.
Proof.
  induction a as [|x a IH]; intros Ha.
  - rewrite app_nil_l. cbn [split]. now rewrite Ascii.eqb_refl.
  - cbn [has_char] in Ha. apply orb_false_iff in Ha as [Hx Ha].
    rewrite app_cons. cbn [split]. now rewrite Hx, (IH Ha).
Qed.

End declared_requests.

(** X17: declaration and request fit together.  After a component is
    declared with a local path that is an existing directory, a request
    for its name, a slash and a relative path opens the join of the path's
    absolute form with that relative path and, when the file can be read,
    answers with its contents and the status untouched.  A name that holds
    a slash is never the component name of a request. *)
Theorem declared_component_is_served os caller p reg f contents h :
  isdir os (os_path_abspath (getcwd os) p) = true ->
  has_char slash (component_name_of caller) = false ->
  open_read os (os_path_join (os_path_abspath (getcwd os) p) f) = Ok contents ->
  fst (get os (snd (declare_component os caller (Some p) None reg))
         (component_name_of caller +:+ String slash f) h) = Ok tt
  /\ status (snd (get os (snd (declare_component os caller (Some p) None reg))
                    (component_name_of caller +:+ String slash f) h)) = status h
  /\ body (snd (get os (snd (declare_component os caller (Some p) None reg))
                  (component_name_of caller +:+ String slash f) h))
     = body h +:+ contents
  /\ opened (snd (get os (snd (declare_component os caller (Some p) None reg))
                    (component_name_of caller +:+ String slash f) h))
     = opened h ++ [os_path_join (os_path_abspath (getcwd os) p) f]
  /\ (forall n path, has_char slash n = true -> first_part (split slash path) <> n).
Proof.
  intros Hdir Hname Hread.
  set (c := {| CustomComponent.name := component_name_of caller;
               CustomComponent.path := Some p; CustomComponent.url := None |}).
  assert (Hv : valid_location os c = true) by (unfold valid_location; cbn; exact Hdir).
  assert (Hreg : snd (declare_component os caller (Some p) None reg)
                 = {| _components := <[component_name_of caller := c]> (_components reg);
                      registry_log :=
                        registry_log reg
                        ++ registration_records c
                             (_components reg !! component_name_of caller) |}).
  { unfold declare_component. cbn [CustomComponent.init lift]. fold c.
    unfold bind at 1. cbn [lift]. unfold bind.
    now rewrite (register_component_accepted os c reg Hv). }
  rewrite Hreg. clear Hreg.
  set (reg' := {| _components := <[component_name_of caller := c]> (_components reg);
                  registry_log := _ |}).
  set (path := component_name_of caller +:+ String slash f).
  assert (Hfirst : first_part (split slash path) = component_name_of caller).
  { unfold path, first_part. now rewrite (split_app_sep slash _ f Hname). }
  assert (Hrel : relative_path path = f).
  { unfold path, relative_path. rewrite (split_app_sep slash _ f Hname).
    cbn [List.tl]. apply (join_split slash). }
  assert (Hroot : get_component_path os reg' (first_part (split slash path))
                  = Some (os_path_abspath (getcwd os) p)).
  { rewrite Hfirst. unfold get_component_path, reg'. cbn [_components].
    now rewrite lookup_insert_eq. }
  assert (Hread' : open_read os (os_path_join (os_path_abspath (getcwd os) p)
                                   (relative_path path)) = Ok contents)
    by now rewrite Hrel.
  rewrite (get_served os reg' path h _ contents Hroot Hread').
  cbn [fst snd status body opened]. rewrite Hrel. repeat split.
  intros n path' Hn Heq.
  pose proof (split_head_no_sep slash path') as Hhd.
  unfold first_part in Heq. congruence.
Qed.

Lemma declared_component_is_served_witness :
  body (snd (get demo_os
               (snd (declare_component demo_os
                       {| module_name := "my_pkg.widget";
                          file_path := "/home/u/my_pkg/widget.py" |}
                       (Some "/srv/comp") None ComponentRegistry_init))
               "my_pkg.widget/index.html" new_handler))
  = "<html></html>".
Proof.
  exact (proj1 (proj2 (proj2 (declared_component_is_served demo_os
           {| module_name := "my_pkg.widget"; file_path := "/home/u/my_pkg/widget.py" |}
           "/srv/comp" ComponentRegistry_init "index.html" "<html></html>" new_handler
           eq_refl eq_refl eq_refl)))).
Defined.
